(** * Archon MCP HTTP bridge and Beads demonstration agent

  A shallow embedding of

  - [ARCHON/python/src/mcp_server/http_bridge.py]  (module [RestBridge]):
    the JSON-RPC bridge that forwards to REST endpoints with httpx;
  - [python/src/mcp_server/http_bridge.py]         (module [ToolBridge]):
    the JSON-RPC bridge that calls the MCP tool functions in process;
  - [_user_tools/beads-main/examples/python-agent/agent.py] (module [Agent]):
    the agent loop around the [bd] command line tool.

  Python values that travel through these programs are JSON values.  The
  effects of the programs (downstream calls, log records, sub-processes,
  exceptions) are threaded through a small state-and-exception monad. *)

From Stdlib Require Import String Ascii List ZArith NArith Bool Lia DecimalString.
Import ListNotations.

Local Open Scope string_scope.
Local Open Scope Z_scope.

Local Set Warnings "-register-all".

(* ===================================================================== *)
(** * JSON values as Python sees them *)
(* ===================================================================== *)

Module Json.

(** A [float] as far as the programs can tell floats apart: a finite one is
    known by its [repr] (["1.5"], ["-0.0"], ["1e+22"]), and [json.loads]
    also reads the three that are not finite. *)
Inductive pyfloat : Type :=
| Finite (repr : string)
| NaN
| PosInf
| NegInf.

(** What [json.loads] produces: [None], [bool], [int], [float], [str],
    [list] and [dict] with string keys.  A [dict] is kept as the list of its
    items in insertion order.  A [str] is kept as the bytes of its UTF-8
    encoding, every code point encoded by the general scheme, so that a lone
    surrogate, which [json.loads] accepts, takes three bytes like its
    neighbours. *)
Inductive json : Type :=
| JNull
| JBool (b : bool)
| JInt (n : Z)
| JFloat (x : pyfloat)
| JStr (s : string)
| JList (items : list json)
| JObj (members : list (string * json)).

Definition dict := list (string * json).

(** [d.get(k)] on the items of a dict: the value stored under [k]. *)
Fixpoint dict_get (k : string) (d : dict) : option json :=
  match d with
  | [] => None
  | (k', v) :: d' => if String.eqb k k' then Some v else dict_get k d'
  end.

(** [d.get(k, default)]. *)
Definition dict_get_default (k : string) (default : json) (d : dict) : json :=
  match dict_get k d with
  | Some v => v
  | None => default
  end.

(** [{k: v for k, v in d.items() if keep(k)}]. *)
Definition dict_filter (keep : string -> bool) (d : dict) : dict :=
  filter (fun kv => keep (fst kv)) d.

(** [k not in [k1, ..., kn]] for string keys. *)
Definition not_in (ks : list string) (k : string) : bool :=
  negb (existsb (String.eqb k) ks).

(** [del d[k]] where present; used to compare a request with the same
    request without one of its keys. *)
Definition dict_remove (k : string) (d : dict) : dict :=
  dict_filter (fun k' => negb (String.eqb k' k)) d.

(** [x != 0.0] for a float; [nan] and the infinities are not zero. *)
Definition float_nonzero (x : pyfloat) : bool :=
  match x with
  | Finite repr => negb (String.eqb repr "0.0" || String.eqb repr "-0.0")
  | _ => true
  end.

(** Truth value of a Python object, as tested by [if not x]. *)
Definition truthy (v : json) : bool :=
  match v with
  | JNull => false
  | JBool b => b
  | JInt n => negb (n =? 0)
  | JFloat x => float_nonzero x
  | JStr s => negb (String.eqb s "")
  | JList items => match items with [] => false | _ => true end
  | JObj members => match members with [] => false | _ => true end
  end.

(** [v == "literal"]: only a [str] can be equal to a [str]. *)
Definition eq_str (v : json) (literal : string) : bool :=
  match v with
  | JStr s => String.eqb s literal
  | _ => false
  end.

(** [type(v).__name__]. *)
Definition type_name (v : json) : string :=
  match v with
  | JNull => "NoneType"
  | JBool _ => "bool"
  | JInt _ => "int"
  | JFloat _ => "float"
  | JStr _ => "str"
  | JList _ => "list"
  | JObj _ => "dict"
  end.

End Json.
Export Json.

(* ===================================================================== *)
(** * The Python builtins the programs call *)
(* ===================================================================== *)

Module Builtins.

Definition char (n : nat) : string := String (ascii_of_nat n) EmptyString.

Definition dquote : string := char 34.
Definition squote : string := char 39.
Definition backslash : string := char 92.

(** The six low bits of a continuation byte. *)
Definition low6 (c : ascii) : N := N.land (N_of_ascii c) 63.

(** The code points of a text, each with the bytes that encode it.  A byte
    that starts no sequence, or a sequence cut short by the end of the text,
    cannot come from a [str]; it is read as a code point of its own. *)
Fixpoint code_points (s : string) : list (N * string) :=
  match s with
  | EmptyString => []
  | String c1 s1 =>
      let b1 := N_of_ascii c1 in
      let alone := (b1, String c1 EmptyString) in
      if (b1 <? 192)%N then alone :: code_points s1
      else
        match s1 with
        | EmptyString => [alone]
        | String c2 s2 =>
            if (b1 <? 224)%N then
              (N.land b1 31 * 64 + low6 c2, String c1 (String c2 EmptyString))%N
                :: code_points s2
            else
              match s2 with
              | EmptyString => alone :: code_points s1
              | String c3 s3 =>
                  if (b1 <? 240)%N then
                    ((N.land b1 15 * 64 + low6 c2) * 64 + low6 c3,
                     String c1 (String c2 (String c3 EmptyString)))%N
                      :: code_points s3
                  else
                    match s3 with
                    | EmptyString => alone :: code_points s1
                    | String c4 s4 =>
                        ((((N.land b1 7 * 64 + low6 c2) * 64 + low6 c3) * 64
                          + low6 c4)%N,
                         String c1 (String c2 (String c3 (String c4 EmptyString))))
                          :: code_points s4
                    end
              end
        end
  end.

Definition is_surrogate (cp : N) : bool := ((55296 <=? cp) && (cp <=? 57343))%N.

(** The text holds a lone surrogate: no codec but the permissive ones
    encodes it. *)
Definition has_surrogate (s : string) : bool :=
  existsb (fun p => is_surrogate (fst p)) (code_points s).

(** The text holds the character NUL. *)
Definition has_nul (s : string) : bool :=
  existsb (fun p => (fst p =? 0)%N) (code_points s).

Definition hex_digit (n : N) : string :=
  match nth_error
          ["0"; "1"; "2"; "3"; "4"; "5"; "6"; "7";
           "8"; "9"; "a"; "b"; "c"; "d"; "e"; "f"] (N.to_nat n) with
  | Some d => d
  | None => "?"
  end.

(** [n] in lower-case hexadecimal, as many digits as [width] says. *)
Fixpoint hex (width : nat) (n : N) : string :=
  match width with
  | O => ""
  | S w => hex w (n / 16)%N ++ hex_digit (n mod 16)%N
  end.

(** [str(n)] for an [int]. *)
Definition decimal (n : Z) : string := NilZero.string_of_int (Z.to_int n).

Fixpoint join (sep : string) (parts : list string) : string :=
  match parts with
  | [] => ""
  | [p] => p
  | p :: rest => p ++ sep ++ join sep rest
  end.

Definition concat_map {A : Type} (f : A -> string) (l : list A) : string :=
  fold_right (fun a acc => f a ++ acc) "" l.

Fixpoint has_char (c : ascii) (s : string) : bool :=
  match s with
  | EmptyString => false
  | String c' s' => Ascii.eqb c c' || has_char c s'
  end.

(** One code point of a JSON string literal as [json.dumps] writes it with
    [ensure_ascii]: everything outside [' '..'~'] is escaped, a code point
    beyond the basic plane as a surrogate pair. *)
Definition json_escape (p : N * string) : string :=
  let (cp, raw) := p in
  if (cp =? 34)%N then backslash ++ dquote
  else if (cp =? 92)%N then backslash ++ backslash
  else if (cp =? 10)%N then backslash ++ "n"
  else if (cp =? 13)%N then backslash ++ "r"
  else if (cp =? 9)%N then backslash ++ "t"
  else if (cp =? 8)%N then backslash ++ "b"
  else if (cp =? 12)%N then backslash ++ "f"
  else if ((32 <=? cp) && (cp <=? 126))%N then raw
  else if (cp <? 65536)%N then backslash ++ "u" ++ hex 4 cp
  else backslash ++ "u" ++ hex 4 (55296 + (cp - 65536) / 1024)%N
       ++ backslash ++ "u" ++ hex 4 (56320 + (cp - 65536) mod 1024)%N.

Definition json_quote (s : string) : string :=
  dquote ++ concat_map json_escape (code_points s) ++ dquote.

(** A float as [json.dumps] writes it by default ([allow_nan] is true). *)
Definition json_float (x : pyfloat) : string :=
  match x with
  | Finite repr => repr
  | NaN => "NaN"
  | PosInf => "Infinity"
  | NegInf => "-Infinity"
  end.

(** [json.dumps(v)] with its default separators. *)
Fixpoint json_dumps (v : json) : string :=
  match v with
  | JNull => "null"
  | JBool true => "true"
  | JBool false => "false"
  | JInt n => decimal n
  | JFloat x => json_float x
  | JStr s => json_quote s
  | JList items => "[" ++ join ", " (map json_dumps items) ++ "]"
  | JObj members =>
      "{" ++ join ", "
               (map (fun kv => json_quote (fst kv) ++ ": " ++ json_dumps (snd kv))
                    members) ++ "}"
  end.

(** The code points for which [str.isprintable()] is false, as inclusive
    ranges (Unicode 14.0, the character database of CPython 3.11). *)
Definition not_printable : list (N * N) :=
  [
   (0, 31)%N; (127, 160)%N; (173, 173)%N; (888, 889)%N; (896, 899)%N; (907, 907)%N;
   (909, 909)%N; (930, 930)%N; (1328, 1328)%N; (1367, 1368)%N; (1419, 1420)%N;
   (1424, 1424)%N; (1480, 1487)%N; (1515, 1518)%N; (1525, 1541)%N; (1564, 1564)%N;
   (1757, 1757)%N; (1806, 1807)%N; (1867, 1868)%N; (1970, 1983)%N; (2043, 2044)%N;
   (2094, 2095)%N; (2111, 2111)%N; (2140, 2141)%N; (2143, 2143)%N; (2155, 2159)%N;
   (2191, 2199)%N; (2274, 2274)%N; (2436, 2436)%N; (2445, 2446)%N; (2449, 2450)%N;
   (2473, 2473)%N; (2481, 2481)%N; (2483, 2485)%N; (2490, 2491)%N; (2501, 2502)%N;
   (2505, 2506)%N; (2511, 2518)%N; (2520, 2523)%N; (2526, 2526)%N; (2532, 2533)%N;
   (2559, 2560)%N; (2564, 2564)%N; (2571, 2574)%N; (2577, 2578)%N; (2601, 2601)%N;
   (2609, 2609)%N; (2612, 2612)%N; (2615, 2615)%N; (2618, 2619)%N; (2621, 2621)%N;
   (2627, 2630)%N; (2633, 2634)%N; (2638, 2640)%N; (2642, 2648)%N; (2653, 2653)%N;
   (2655, 2661)%N; (2679, 2688)%N; (2692, 2692)%N; (2702, 2702)%N; (2706, 2706)%N;
   (2729, 2729)%N; (2737, 2737)%N; (2740, 2740)%N; (2746, 2747)%N; (2758, 2758)%N;
   (2762, 2762)%N; (2766, 2767)%N; (2769, 2783)%N; (2788, 2789)%N; (2802, 2808)%N;
   (2816, 2816)%N; (2820, 2820)%N; (2829, 2830)%N; (2833, 2834)%N; (2857, 2857)%N;
   (2865, 2865)%N; (2868, 2868)%N; (2874, 2875)%N; (2885, 2886)%N; (2889, 2890)%N;
   (2894, 2900)%N; (2904, 2907)%N; (2910, 2910)%N; (2916, 2917)%N; (2936, 2945)%N;
   (2948, 2948)%N; (2955, 2957)%N; (2961, 2961)%N; (2966, 2968)%N; (2971, 2971)%N;
   (2973, 2973)%N; (2976, 2978)%N; (2981, 2983)%N; (2987, 2989)%N; (3002, 3005)%N;
   (3011, 3013)%N; (3017, 3017)%N; (3022, 3023)%N; (3025, 3030)%N; (3032, 3045)%N;
   (3067, 3071)%N; (3085, 3085)%N; (3089, 3089)%N; (3113, 3113)%N; (3130, 3131)%N;
   (3141, 3141)%N; (3145, 3145)%N; (3150, 3156)%N; (3159, 3159)%N; (3163, 3164)%N;
   (3166, 3167)%N; (3172, 3173)%N; (3184, 3190)%N; (3213, 3213)%N; (3217, 3217)%N;
   (3241, 3241)%N; (3252, 3252)%N; (3258, 3259)%N; (3269, 3269)%N; (3273, 3273)%N;
   (3278, 3284)%N; (3287, 3292)%N; (3295, 3295)%N; (3300, 3301)%N; (3312, 3312)%N;
   (3315, 3327)%N; (3341, 3341)%N; (3345, 3345)%N; (3397, 3397)%N; (3401, 3401)%N;
   (3408, 3411)%N; (3428, 3429)%N; (3456, 3456)%N; (3460, 3460)%N; (3479, 3481)%N;
   (3506, 3506)%N; (3516, 3516)%N; (3518, 3519)%N; (3527, 3529)%N; (3531, 3534)%N;
   (3541, 3541)%N; (3543, 3543)%N; (3552, 3557)%N; (3568, 3569)%N; (3573, 3584)%N;
   (3643, 3646)%N; (3676, 3712)%N; (3715, 3715)%N; (3717, 3717)%N; (3723, 3723)%N;
   (3748, 3748)%N; (3750, 3750)%N; (3774, 3775)%N; (3781, 3781)%N; (3783, 3783)%N;
   (3790, 3791)%N; (3802, 3803)%N; (3808, 3839)%N; (3912, 3912)%N; (3949, 3952)%N;
   (3992, 3992)%N; (4029, 4029)%N; (4045, 4045)%N; (4059, 4095)%N; (4294, 4294)%N;
   (4296, 4300)%N; (4302, 4303)%N; (4681, 4681)%N; (4686, 4687)%N; (4695, 4695)%N;
   (4697, 4697)%N; (4702, 4703)%N; (4745, 4745)%N; (4750, 4751)%N; (4785, 4785)%N;
   (4790, 4791)%N; (4799, 4799)%N; (4801, 4801)%N; (4806, 4807)%N; (4823, 4823)%N;
   (4881, 4881)%N; (4886, 4887)%N; (4955, 4956)%N; (4989, 4991)%N; (5018, 5023)%N;
   (5110, 5111)%N; (5118, 5119)%N; (5760, 5760)%N; (5789, 5791)%N; (5881, 5887)%N;
   (5910, 5918)%N; (5943, 5951)%N; (5972, 5983)%N; (5997, 5997)%N; (6001, 6001)%N;
   (6004, 6015)%N; (6110, 6111)%N; (6122, 6127)%N; (6138, 6143)%N; (6158, 6158)%N;
   (6170, 6175)%N; (6265, 6271)%N; (6315, 6319)%N; (6390, 6399)%N; (6431, 6431)%N;
   (6444, 6447)%N; (6460, 6463)%N; (6465, 6467)%N; (6510, 6511)%N; (6517, 6527)%N;
   (6572, 6575)%N; (6602, 6607)%N; (6619, 6621)%N; (6684, 6685)%N; (6751, 6751)%N;
   (6781, 6782)%N; (6794, 6799)%N; (6810, 6815)%N; (6830, 6831)%N; (6863, 6911)%N;
   (6989, 6991)%N; (7039, 7039)%N; (7156, 7163)%N; (7224, 7226)%N; (7242, 7244)%N;
   (7305, 7311)%N; (7355, 7356)%N; (7368, 7375)%N; (7419, 7423)%N; (7958, 7959)%N;
   (7966, 7967)%N; (8006, 8007)%N; (8014, 8015)%N; (8024, 8024)%N; (8026, 8026)%N;
   (8028, 8028)%N; (8030, 8030)%N; (8062, 8063)%N; (8117, 8117)%N; (8133, 8133)%N;
   (8148, 8149)%N; (8156, 8156)%N; (8176, 8177)%N; (8181, 8181)%N; (8191, 8207)%N;
   (8232, 8239)%N; (8287, 8303)%N; (8306, 8307)%N; (8335, 8335)%N; (8349, 8351)%N;
   (8385, 8399)%N; (8433, 8447)%N; (8588, 8591)%N; (9255, 9279)%N; (9291, 9311)%N;
   (11124, 11125)%N; (11158, 11158)%N; (11508, 11512)%N; (11558, 11558)%N;
   (11560, 11564)%N; (11566, 11567)%N; (11624, 11630)%N; (11633, 11646)%N;
   (11671, 11679)%N; (11687, 11687)%N; (11695, 11695)%N; (11703, 11703)%N;
   (11711, 11711)%N; (11719, 11719)%N; (11727, 11727)%N; (11735, 11735)%N;
   (11743, 11743)%N; (11870, 11903)%N; (11930, 11930)%N; (12020, 12031)%N;
   (12246, 12271)%N; (12284, 12288)%N; (12352, 12352)%N; (12439, 12440)%N;
   (12544, 12548)%N; (12592, 12592)%N; (12687, 12687)%N; (12772, 12783)%N;
   (12831, 12831)%N; (42125, 42127)%N; (42183, 42191)%N; (42540, 42559)%N;
   (42744, 42751)%N; (42955, 42959)%N; (42962, 42962)%N; (42964, 42964)%N;
   (42970, 42993)%N; (43053, 43055)%N; (43066, 43071)%N; (43128, 43135)%N;
   (43206, 43213)%N; (43226, 43231)%N; (43348, 43358)%N; (43389, 43391)%N;
   (43470, 43470)%N; (43482, 43485)%N; (43519, 43519)%N; (43575, 43583)%N;
   (43598, 43599)%N; (43610, 43611)%N; (43715, 43738)%N; (43767, 43776)%N;
   (43783, 43784)%N; (43791, 43792)%N; (43799, 43807)%N; (43815, 43815)%N;
   (43823, 43823)%N; (43884, 43887)%N; (44014, 44015)%N; (44026, 44031)%N;
   (55204, 55215)%N; (55239, 55242)%N; (55292, 63743)%N; (64110, 64111)%N;
   (64218, 64255)%N; (64263, 64274)%N; (64280, 64284)%N; (64311, 64311)%N;
   (64317, 64317)%N; (64319, 64319)%N; (64322, 64322)%N; (64325, 64325)%N;
   (64451, 64466)%N; (64912, 64913)%N; (64968, 64974)%N; (64976, 65007)%N;
   (65050, 65055)%N; (65107, 65107)%N; (65127, 65127)%N; (65132, 65135)%N;
   (65141, 65141)%N; (65277, 65280)%N; (65471, 65473)%N; (65480, 65481)%N;
   (65488, 65489)%N; (65496, 65497)%N; (65501, 65503)%N; (65511, 65511)%N;
   (65519, 65531)%N; (65534, 65535)%N; (65548, 65548)%N; (65575, 65575)%N;
   (65595, 65595)%N; (65598, 65598)%N; (65614, 65615)%N; (65630, 65663)%N;
   (65787, 65791)%N; (65795, 65798)%N; (65844, 65846)%N; (65935, 65935)%N;
   (65949, 65951)%N; (65953, 65999)%N; (66046, 66175)%N; (66205, 66207)%N;
   (66257, 66271)%N; (66300, 66303)%N; (66340, 66348)%N; (66379, 66383)%N;
   (66427, 66431)%N; (66462, 66462)%N; (66500, 66503)%N; (66518, 66559)%N;
   (66718, 66719)%N; (66730, 66735)%N; (66772, 66775)%N; (66812, 66815)%N;
   (66856, 66863)%N; (66916, 66926)%N; (66939, 66939)%N; (66955, 66955)%N;
   (66963, 66963)%N; (66966, 66966)%N; (66978, 66978)%N; (66994, 66994)%N;
   (67002, 67002)%N; (67005, 67071)%N; (67383, 67391)%N; (67414, 67423)%N;
   (67432, 67455)%N; (67462, 67462)%N; (67505, 67505)%N; (67515, 67583)%N;
   (67590, 67591)%N; (67593, 67593)%N; (67638, 67638)%N; (67641, 67643)%N;
   (67645, 67646)%N; (67670, 67670)%N; (67743, 67750)%N; (67760, 67807)%N;
   (67827, 67827)%N; (67830, 67834)%N; (67868, 67870)%N; (67898, 67902)%N;
   (67904, 67967)%N; (68024, 68027)%N; (68048, 68049)%N; (68100, 68100)%N;
   (68103, 68107)%N; (68116, 68116)%N; (68120, 68120)%N; (68150, 68151)%N;
   (68155, 68158)%N; (68169, 68175)%N; (68185, 68191)%N; (68256, 68287)%N;
   (68327, 68330)%N; (68343, 68351)%N; (68406, 68408)%N; (68438, 68439)%N;
   (68467, 68471)%N; (68498, 68504)%N; (68509, 68520)%N; (68528, 68607)%N;
   (68681, 68735)%N; (68787, 68799)%N; (68851, 68857)%N; (68904, 68911)%N;
   (68922, 69215)%N; (69247, 69247)%N; (69290, 69290)%N; (69294, 69295)%N;
   (69298, 69375)%N; (69416, 69423)%N; (69466, 69487)%N; (69514, 69551)%N;
   (69580, 69599)%N; (69623, 69631)%N; (69710, 69713)%N; (69750, 69758)%N;
   (69821, 69821)%N; (69827, 69839)%N; (69865, 69871)%N; (69882, 69887)%N;
   (69941, 69941)%N; (69960, 69967)%N; (70007, 70015)%N; (70112, 70112)%N;
   (70133, 70143)%N; (70162, 70162)%N; (70207, 70271)%N; (70279, 70279)%N;
   (70281, 70281)%N; (70286, 70286)%N; (70302, 70302)%N; (70314, 70319)%N;
   (70379, 70383)%N; (70394, 70399)%N; (70404, 70404)%N; (70413, 70414)%N;
   (70417, 70418)%N; (70441, 70441)%N; (70449, 70449)%N; (70452, 70452)%N;
   (70458, 70458)%N; (70469, 70470)%N; (70473, 70474)%N; (70478, 70479)%N;
   (70481, 70486)%N; (70488, 70492)%N; (70500, 70501)%N; (70509, 70511)%N;
   (70517, 70655)%N; (70748, 70748)%N; (70754, 70783)%N; (70856, 70863)%N;
   (70874, 71039)%N; (71094, 71095)%N; (71134, 71167)%N; (71237, 71247)%N;
   (71258, 71263)%N; (71277, 71295)%N; (71354, 71359)%N; (71370, 71423)%N;
   (71451, 71452)%N; (71468, 71471)%N; (71495, 71679)%N; (71740, 71839)%N;
   (71923, 71934)%N; (71943, 71944)%N; (71946, 71947)%N; (71956, 71956)%N;
   (71959, 71959)%N; (71990, 71990)%N; (71993, 71994)%N; (72007, 72015)%N;
   (72026, 72095)%N; (72104, 72105)%N; (72152, 72153)%N; (72165, 72191)%N;
   (72264, 72271)%N; (72355, 72367)%N; (72441, 72703)%N; (72713, 72713)%N;
   (72759, 72759)%N; (72774, 72783)%N; (72813, 72815)%N; (72848, 72849)%N;
   (72872, 72872)%N; (72887, 72959)%N; (72967, 72967)%N; (72970, 72970)%N;
   (73015, 73017)%N; (73019, 73019)%N; (73022, 73022)%N; (73032, 73039)%N;
   (73050, 73055)%N; (73062, 73062)%N; (73065, 73065)%N; (73103, 73103)%N;
   (73106, 73106)%N; (73113, 73119)%N; (73130, 73439)%N; (73465, 73647)%N;
   (73649, 73663)%N; (73714, 73726)%N; (74650, 74751)%N; (74863, 74863)%N;
   (74869, 74879)%N; (75076, 77711)%N; (77811, 77823)%N; (78895, 82943)%N;
   (83527, 92159)%N; (92729, 92735)%N; (92767, 92767)%N; (92778, 92781)%N;
   (92863, 92863)%N; (92874, 92879)%N; (92910, 92911)%N; (92918, 92927)%N;
   (92998, 93007)%N; (93018, 93018)%N; (93026, 93026)%N; (93048, 93052)%N;
   (93072, 93759)%N; (93851, 93951)%N; (94027, 94030)%N; (94088, 94094)%N;
   (94112, 94175)%N; (94181, 94191)%N; (94194, 94207)%N; (100344, 100351)%N;
   (101590, 101631)%N; (101641, 110575)%N; (110580, 110580)%N; (110588, 110588)%N;
   (110591, 110591)%N; (110883, 110927)%N; (110931, 110947)%N; (110952, 110959)%N;
   (111356, 113663)%N; (113771, 113775)%N; (113789, 113791)%N; (113801, 113807)%N;
   (113818, 113819)%N; (113824, 118527)%N; (118574, 118575)%N; (118599, 118607)%N;
   (118724, 118783)%N; (119030, 119039)%N; (119079, 119080)%N; (119155, 119162)%N;
   (119275, 119295)%N; (119366, 119519)%N; (119540, 119551)%N; (119639, 119647)%N;
   (119673, 119807)%N; (119893, 119893)%N; (119965, 119965)%N; (119968, 119969)%N;
   (119971, 119972)%N; (119975, 119976)%N; (119981, 119981)%N; (119994, 119994)%N;
   (119996, 119996)%N; (120004, 120004)%N; (120070, 120070)%N; (120075, 120076)%N;
   (120085, 120085)%N; (120093, 120093)%N; (120122, 120122)%N; (120127, 120127)%N;
   (120133, 120133)%N; (120135, 120137)%N; (120145, 120145)%N; (120486, 120487)%N;
   (120780, 120781)%N; (121484, 121498)%N; (121504, 121504)%N; (121520, 122623)%N;
   (122655, 122879)%N; (122887, 122887)%N; (122905, 122906)%N; (122914, 122914)%N;
   (122917, 122917)%N; (122923, 123135)%N; (123181, 123183)%N; (123198, 123199)%N;
   (123210, 123213)%N; (123216, 123535)%N; (123567, 123583)%N; (123642, 123646)%N;
   (123648, 124895)%N; (124903, 124903)%N; (124908, 124908)%N; (124911, 124911)%N;
   (124927, 124927)%N; (125125, 125126)%N; (125143, 125183)%N; (125260, 125263)%N;
   (125274, 125277)%N; (125280, 126064)%N; (126133, 126208)%N; (126270, 126463)%N;
   (126468, 126468)%N; (126496, 126496)%N; (126499, 126499)%N; (126501, 126502)%N;
   (126504, 126504)%N; (126515, 126515)%N; (126520, 126520)%N; (126522, 126522)%N;
   (126524, 126529)%N; (126531, 126534)%N; (126536, 126536)%N; (126538, 126538)%N;
   (126540, 126540)%N; (126544, 126544)%N; (126547, 126547)%N; (126549, 126550)%N;
   (126552, 126552)%N; (126554, 126554)%N; (126556, 126556)%N; (126558, 126558)%N;
   (126560, 126560)%N; (126563, 126563)%N; (126565, 126566)%N; (126571, 126571)%N;
   (126579, 126579)%N; (126584, 126584)%N; (126589, 126589)%N; (126591, 126591)%N;
   (126602, 126602)%N; (126620, 126624)%N; (126628, 126628)%N; (126634, 126634)%N;
   (126652, 126703)%N; (126706, 126975)%N; (127020, 127023)%N; (127124, 127135)%N;
   (127151, 127152)%N; (127168, 127168)%N; (127184, 127184)%N; (127222, 127231)%N;
   (127406, 127461)%N; (127491, 127503)%N; (127548, 127551)%N; (127561, 127567)%N;
   (127570, 127583)%N; (127590, 127743)%N; (128728, 128732)%N; (128749, 128751)%N;
   (128765, 128767)%N; (128884, 128895)%N; (128985, 128991)%N; (129004, 129007)%N;
   (129009, 129023)%N; (129036, 129039)%N; (129096, 129103)%N; (129114, 129119)%N;
   (129160, 129167)%N; (129198, 129199)%N; (129202, 129279)%N; (129620, 129631)%N;
   (129646, 129647)%N; (129653, 129655)%N; (129661, 129663)%N; (129671, 129679)%N;
   (129709, 129711)%N; (129723, 129727)%N; (129734, 129743)%N; (129754, 129759)%N;
   (129768, 129775)%N; (129783, 129791)%N; (129939, 129939)%N; (129995, 130031)%N;
   (130042, 131071)%N; (173792, 173823)%N; (177977, 177983)%N; (178206, 178207)%N;
   (183970, 183983)%N; (191457, 194559)%N; (195102, 196607)%N; (201547, 917759)%N;
   (918000, 1114111)%N  ].

Definition printable (cp : N) : bool :=
  negb (existsb (fun r => (fst r <=? cp) && (cp <=? snd r))%N not_printable).

(** One code point of [repr(s)] when [q] is the quote that encloses it. *)
Definition repr_escape (q : N) (p : N * string) : string :=
  let (cp, raw) := p in
  if (cp =? 92)%N then backslash ++ backslash
  else if (cp =? q)%N then backslash ++ raw
  else if (cp =? 10)%N then backslash ++ "n"
  else if (cp =? 13)%N then backslash ++ "r"
  else if (cp =? 9)%N then backslash ++ "t"
  else if printable cp then raw
  else if (cp <? 256)%N then backslash ++ "x" ++ hex 2 cp
  else if (cp <? 65536)%N then backslash ++ "u" ++ hex 4 cp
  else backslash ++ "U" ++ hex 8 cp.

(** [repr(s)] for a [str]: single quotes unless the text holds a single
    quote and no double quote. *)
Definition repr_str (s : string) : string :=
  let q := if (has_char (ascii_of_nat 39) s && negb (has_char (ascii_of_nat 34) s))%bool
           then 34%N else 39%N in
  let quote := String (ascii_of_N q) EmptyString in
  quote ++ concat_map (repr_escape q) (code_points s) ++ quote.

(** [repr(x)] for a [float]. *)
Definition repr_float (x : pyfloat) : string :=
  match x with
  | Finite repr => repr
  | NaN => "nan"
  | PosInf => "inf"
  | NegInf => "-inf"
  end.

Fixpoint py_repr (v : json) : string :=
  match v with
  | JNull => "None"
  | JBool true => "True"
  | JBool false => "False"
  | JInt n => decimal n
  | JFloat x => repr_float x
  | JStr s => repr_str s
  | JList items => "[" ++ join ", " (map py_repr items) ++ "]"
  | JObj members =>
      "{" ++ join ", "
               (map (fun kv => repr_str (fst kv) ++ ": " ++ py_repr (snd kv))
                    members) ++ "}"
  end.

(** [str(v)], which is what an f-string substitutes for [{v}]. *)
Definition py_str (v : json) : string :=
  match v with
  | JStr s => s
  | _ => py_repr v
  end.

(** [s.lower()] as far as the ASCII letters go.  The programs only look
    for the words [implement] and [add] in the result, and of the other
    code points only U+212A (whose lower case is [k]) and U+0130 (whose
    lower case is [i] followed by U+0307) yield an ASCII letter, neither of
    which makes an occurrence of these words. *)
Definition lower_char (c : ascii) : ascii :=
  let n := nat_of_ascii c in
  if (Nat.leb 65 n && Nat.leb n 90)%bool then ascii_of_nat (n + 32) else c.

Fixpoint lower (s : string) : string :=
  match s with
  | EmptyString => EmptyString
  | String c s' => String (lower_char c) (lower s')
  end.

(** [needle in haystack] for two [str]. *)
Fixpoint contains (needle haystack : string) : bool :=
  (String.prefix needle haystack
   || match haystack with
      | EmptyString => false
      | String _ rest => contains needle rest
      end)%bool.

End Builtins.
Export Builtins.


(* ===================================================================== *)
(** * Exceptions and effects *)
(* ===================================================================== *)

Module Py.

(** The exception classes that occur.  [LibraryError] stands for whatever a
    library outside this repository raises (httpx, an MCP tool, the MCP
    context constructors); every class derives from [Exception]. *)
Inductive exn_class : Type :=
| AttributeError
| KeyError
| TypeError
| ValueError
| UnicodeEncodeError
| JSONDecodeError
| CalledProcessError
| FileNotFoundError
| LibraryError.

(** An exception: its class and [str(e)]. *)
Record exn : Type := Exn { exn_cls : exn_class; exn_str : string }.

Inductive res (A : Type) : Type :=
| Ret (a : A)
| Raise (e : exn).
Arguments Ret {A} a.
Arguments Raise {A} e.

(** A statement over a store [S]: it returns or raises, and in both cases
    leaves the effects performed so far in the store. *)
Definition M (S A : Type) : Type := S -> res A * S.

Definition ret {S A} (a : A) : M S A := fun st => (Ret a, st).

Definition raise {S A} (e : exn) : M S A := fun st => (Raise e, st).

Definition bind {S A B} (c : M S A) (k : A -> M S B) : M S B :=
  fun st =>
    match c st with
    | (Ret a, st') => k a st'
    | (Raise e, st') => (Raise e, st')
    end.

(** [try: body / except Exception as e: handler(e)]. *)
Definition try_except {S A} (body : M S A) (handler : exn -> M S A) : M S A :=
  fun st =>
    match body st with
    | (Ret a, st') => (Ret a, st')
    | (Raise e, st') => handler e st'
    end.

(** An effect that only changes the store. *)
Definition effect {S} (f : S -> S) : M S unit := fun st => (Ret tt, f st).

(** [obj.get(k, default)]: only a [dict] has the method. *)
Definition py_get {S} (obj : json) (k : string) (default : json) : M S json :=
  match obj with
  | JObj members => ret (dict_get_default k default members)
  | _ => raise (Exn AttributeError
                  ("'" ++ type_name obj ++ "' object has no attribute 'get'"))
  end.

(** [obj.items()]: only a [dict] has the method. *)
Definition py_items {S} (obj : json) : M S dict :=
  match obj with
  | JObj members => ret members
  | _ => raise (Exn AttributeError
                  ("'" ++ type_name obj ++ "' object has no attribute 'items'"))
  end.

End Py.
Export Py.

Declare Scope py_scope.
Delimit Scope py_scope with py.
Notation "x <- c ;; k" := (bind c (fun x => k))
  (at level 61, c at next level, right associativity) : py_scope.
Notation "c ;; k" := (bind c (fun _ => k))
  (at level 61, right associativity) : py_scope.
Local Open Scope py_scope.

(* ===================================================================== *)
(** * What both bridges share *)
(* ===================================================================== *)

Module Bridge.

Inductive verb : Type := GET | POST | PATCH.

(** One call leaving the bridge: an httpx request (ARCHON variant) or an MCP
    tool function applied to keyword arguments (in-process variant; the
    context argument is left out). *)
Inductive call : Type :=
| Http (v : verb) (url : string) (body : option json)
| Tool (name : string) (kwargs : dict).

(** The surroundings of one request.
    - [getenv]: [os.getenv(name)];
    - [downstream]: how a call ends.  For [Http], [inr v] means the request
      was answered, [raise_for_status()] passed and [response.json()] is [v];
      for [Tool], [inr v] is the value the tool returned.  [inl text] means
      an exception [e] with [str(e) = text] was raised on the way;
    - [context_error]: [Some text] when building [ArchonContext] and
      [Context] raises (in-process variant only);
    - [render_error]: [str(e)] of the exception that rendering a
      [JSONResponse] raises for a content it cannot encode. *)
Record runtime : Type := {
  getenv : string -> option string;
  downstream : call -> string + json;
  context_error : option string;
  render_error : json -> string
}.

(** What one request leaves behind: the calls issued and the records
    written with [logger.error], oldest first. *)
Record effects : Type := {
  calls : list call;
  logged : list string
}.

Definition no_effects : effects := {| calls := []; logged := [] |}.

Definition io (A : Type) : Type := M effects A.

Definition issue (rt : runtime) (c : call) : io json :=
  fun st =>
    let st' := {| calls := calls st ++ [c]; logged := logged st |} in
    match downstream rt c with
    | inr v => (Ret v, st')
    | inl text => (Raise (Exn LibraryError text), st')
    end.

Definition logger_error (record : string) : io unit :=
  effect (fun st => {| calls := calls st; logged := logged st ++ [record] |}).

(** What [rpc_endpoint] hands to the framework: a [JSONResponse] object,
    whose body was rendered when the object was built, or a plain dict,
    which the framework turns into a response after the handler has
    returned. *)
Inductive response : Type :=
| Rendered (status_code : Z) (content : json)
| Plain (content : json).

Definition content (r : response) : json :=
  match r with
  | Rendered _ c => c
  | Plain c => c
  end.

(** [return {...}]. *)
Definition returned (content : json) : response := Plain content.

(** Some float inside [v] is [nan] or an infinity. *)
Fixpoint nonfinite (v : json) : bool :=
  match v with
  | JFloat (Finite _) => false
  | JFloat _ => true
  | JList items => existsb nonfinite items
  | JObj members => existsb (fun kv => nonfinite (snd kv)) members
  | _ => false
  end.

(** Some text inside [v], a key or a value, holds a lone surrogate. *)
Fixpoint surrogates (v : json) : bool :=
  match v with
  | JStr s => has_surrogate s
  | JList items => existsb surrogates items
  | JObj members =>
      existsb (fun kv => has_surrogate (fst kv) || surrogates (snd kv)) members
  | _ => false
  end.

(** [JSONResponse.render] is
    [json.dumps(content, ensure_ascii=False, allow_nan=False, ...).encode("utf-8")]:
    [dumps] refuses a float that is not finite, [encode] a lone surrogate. *)
Definition renderable (content : json) : bool :=
  negb (nonfinite content) && negb (surrogates content).

Definition render_exn (rt : runtime) (content : json) : exn :=
  Exn (if nonfinite content then ValueError else UnicodeEncodeError)
      (render_error rt content).

(** [JSONResponse(status_code=..., content=...)]: the constructor renders
    the body, and raises when it cannot. *)
Definition JSONResponse (rt : runtime) (status_code : Z) (content : json) : io response :=
  if renderable content then ret (Rendered status_code content)
  else raise (render_exn rt content).

(** The envelopes, as the dict literals of the handlers. *)
Definition result_envelope (request_id result : json) : json :=
  JObj [("jsonrpc", JStr "2.0"); ("id", request_id); ("result", result)].

Definition error_object (code : Z) (message : string) : json :=
  JObj [("code", JInt code); ("message", JStr message)].

Definition error_envelope (request_id : json) (code : Z) (message : string) : json :=
  JObj [("jsonrpc", JStr "2.0"); ("id", request_id);
        ("error", error_object code message)].

Definition internal_error_envelope : json :=
  JObj [("jsonrpc", JStr "2.0");
        ("error", error_object (-32603) "Internal server error")].

(** The four responses of [rpc_endpoint] that are [JSONResponse] objects,
    once rendered. *)
Definition method_not_specified (request_id : json) : response :=
  Rendered 400 (error_envelope request_id (-32600) "Method not specified").

Definition method_not_found (request_id method : json) : response :=
  Rendered 404
    (error_envelope request_id (-32601)
       ("Method '" ++ py_str method ++ "' not found")).

Definition tool_error_response (request_id : json) (tool_error : exn) : response :=
  Rendered 500 (error_envelope request_id (-32603) (exn_str tool_error)).

Definition internal_error_response : response :=
  Rendered 500 internal_error_envelope.

(** [except Exception as tool_error:] of [rpc_endpoint]. *)
Definition on_tool_error (rt : runtime) (method request_id : json)
    (tool_error : exn) : io response :=
  logger_error ("Error calling MCP tool " ++ py_str method ++ ": "
                ++ exn_str tool_error) ;;
  JSONResponse rt 500 (error_envelope request_id (-32603) (exn_str tool_error)).

(** [except Exception as e:] of [rpc_endpoint]. *)
Definition on_endpoint_error (rt : runtime) (e : exn) : io response :=
  logger_error ("RPC endpoint error: " ++ exn_str e) ;;
  JSONResponse rt 500 internal_error_envelope.

(** [health_endpoint]. *)
Definition health_endpoint : io json :=
  ret (JObj [("status", JStr "healthy"); ("service", JStr "mcp-http-bridge");
             ("tools_available", JBool true)]).

(** Reading a member of a response body. *)
Definition member (k : string) (v : json) : option json :=
  match v with
  | JObj members => dict_get k members
  | _ => None
  end.

End Bridge.
Export Bridge.


(* ===================================================================== *)
(** * ARCHON/python/src/mcp_server/http_bridge.py *)
(* ===================================================================== *)

Module RestBridge.

Section Endpoint.

Variable rt : runtime.

(** [server_host = os.getenv("ARCHON_SERVER_PORT", "8181")];
    [server_url = f"http://archon-server:{server_host}"]. *)
Definition server_host : string :=
  match getenv rt "ARCHON_SERVER_PORT" with
  | Some port => port
  | None => "8181"
  end.

Definition server_url : string := "http://archon-server:" ++ server_host.

(** [response.raise_for_status(); result = response.json();
    return {"jsonrpc": "2.0", "id": request_id, "result": json.dumps(result)}]
    after the request [c]. *)
Definition forward (request_id : json) (c : call) : io response :=
  result <- issue rt c ;;
  ret (returned (result_envelope request_id (JStr (json_dumps result)))).

Definition perform_rag_query (params request_id : json) : io response :=
  query <- py_get params "query" (JStr "") ;;
  source <- py_get params "source" JNull ;;
  match_count <- py_get params "match_count" (JInt 5) ;;
  forward request_id
    (Http POST (server_url ++ "/api/rag/query")
       (Some (JObj [("query", query); ("source_id", source);
                    ("match_count", match_count)]))).

Definition get_available_sources (request_id : json) : io response :=
  forward request_id (Http GET (server_url ++ "/api/rag/sources") None).

Definition search_code_examples (params request_id : json) : io response :=
  query <- py_get params "query" (JStr "") ;;
  source_id <- py_get params "source_id" JNull ;;
  match_count <- py_get params "match_count" (JInt 5) ;;
  forward request_id
    (Http POST (server_url ++ "/api/rag/code-examples")
       (Some (JObj [("query", query); ("source_id", source_id);
                    ("match_count", match_count)]))).

Definition manage_project (params request_id : json) : io response :=
  action <- py_get params "action" JNull ;;
  if eq_str action "create" then
    items <- py_items params ;;
    forward request_id
      (Http POST (server_url ++ "/api/projects")
         (Some (JObj (dict_filter (fun k => negb (String.eqb k "action")) items))))
  else if eq_str action "get" then
    project_id <- py_get params "project_id" JNull ;;
    forward request_id
      (Http GET (server_url ++ "/api/projects/" ++ py_str project_id) None)
  else
    project_id <- py_get params "project_id" (JStr "") ;;
    items <- py_items params ;;
    forward request_id
      (Http PATCH (server_url ++ "/api/projects/" ++ py_str project_id)
         (Some (JObj (dict_filter (fun k => negb (String.eqb k "action")) items)))).

Definition manage_task (params request_id : json) : io response :=
  action <- py_get params "action" JNull ;;
  project_id <- py_get params "project_id" (JStr "") ;;
  if eq_str action "create" then
    items <- py_items params ;;
    forward request_id
      (Http POST (server_url ++ "/api/projects/" ++ py_str project_id ++ "/tasks")
         (Some (JObj (dict_filter (not_in ["action"; "project_id"]) items))))
  else
    task_id <- py_get params "task_id" (JStr "") ;;
    items <- py_items params ;;
    forward request_id
      (Http PATCH
         (server_url ++ "/api/projects/" ++ py_str project_id
                     ++ "/tasks/" ++ py_str task_id)
         (Some (JObj (dict_filter (not_in ["action"; "project_id"; "task_id"])
                        items)))).

Definition manage_document (params request_id : json) : io response :=
  action <- py_get params "action" JNull ;;
  project_id <- py_get params "project_id" (JStr "") ;;
  if eq_str action "create" then
    items <- py_items params ;;
    forward request_id
      (Http POST
         (server_url ++ "/api/projects/" ++ py_str project_id ++ "/documents")
         (Some (JObj (dict_filter (not_in ["action"; "project_id"]) items))))
  else
    doc_id <- py_get params "doc_id" (JStr "") ;;
    items <- py_items params ;;
    forward request_id
      (Http PATCH
         (server_url ++ "/api/projects/" ++ py_str project_id
                     ++ "/documents/" ++ py_str doc_id)
         (Some (JObj (dict_filter (not_in ["action"; "project_id"; "doc_id"])
                        items)))).

(** The body of the inner [try]: the [if method == ... elif ... else]
    chain. *)
Definition route (method params request_id : json) : io response :=
  if eq_str method "perform_rag_query" then perform_rag_query params request_id
  else if eq_str method "get_available_sources" then get_available_sources request_id
  else if eq_str method "search_code_examples" then search_code_examples params request_id
  else if eq_str method "manage_project" then manage_project params request_id
  else if eq_str method "manage_task" then manage_task params request_id
  else if eq_str method "manage_document" then manage_document params request_id
  else
    JSONResponse rt 404
      (error_envelope request_id (-32601)
         ("Method '" ++ py_str method ++ "' not found")).

(** The body of the outer [try]. *)
Definition handle (request : json) : io response :=
  method <- py_get request "method" JNull ;;
  params <- py_get request "params" (JObj []) ;;
  request_id <- py_get request "id" (JInt 1) ;;
  if negb (truthy method) then
    JSONResponse rt 400
      (error_envelope request_id (-32600) "Method not specified")
  else try_except (route method params request_id)
                  (on_tool_error rt method request_id).

(** [rpc_endpoint(request)]. *)
Definition rpc_endpoint (request : json) : io response :=
  try_except (handle request) (on_endpoint_error rt).

End Endpoint.

End RestBridge.

(* ===================================================================== *)
(** * python/src/mcp_server/http_bridge.py *)
(* ===================================================================== *)

Module ToolBridge.

Section Endpoint.

Variable rt : runtime.

(** [context = ArchonContext(service_client=None);
    mcp_context = Context(deps=context)]. *)
Definition make_context : io unit :=
  match context_error rt with
  | Some text => raise (Exn LibraryError text)
  | None => ret tt
  end.

(** [result = await tool(mcp_context, **kwargs);
    return {"jsonrpc": "2.0", "id": request_id, "result": result}]. *)
Definition invoke (request_id : json) (tool : string) (kwargs : dict) : io response :=
  result <- issue rt (Tool tool kwargs) ;;
  ret (returned (result_envelope request_id result)).

Definition perform_rag_query (params request_id : json) : io response :=
  query <- py_get params "query" (JStr "") ;;
  source <- py_get params "source" JNull ;;
  match_count <- py_get params "match_count" (JInt 5) ;;
  invoke request_id "rag_search_knowledge_base"
    [("query", query); ("source_id", source); ("match_count", match_count)].

Definition get_available_sources (request_id : json) : io response :=
  invoke request_id "rag_get_available_sources" [].

Definition search_code_examples (params request_id : json) : io response :=
  query <- py_get params "query" (JStr "") ;;
  source_id <- py_get params "source_id" JNull ;;
  match_count <- py_get params "match_count" (JInt 5) ;;
  invoke request_id "rag_search_code_examples"
    [("query", query); ("source_id", source_id); ("match_count", match_count)].

Definition manage_project (params request_id : json) : io response :=
  action <- py_get params "action" JNull ;;
  items <- py_items params ;;
  invoke request_id "manage_project"
    (("action", action)
       :: dict_filter (fun k => negb (String.eqb k "action")) items).

Definition manage_document (params request_id : json) : io response :=
  action <- py_get params "action" JNull ;;
  project_id <- py_get params "project_id" JNull ;;
  items <- py_items params ;;
  invoke request_id "manage_document"
    (("action", action) :: ("project_id", project_id)
       :: dict_filter (not_in ["action"; "project_id"]) items).

Definition manage_task (params request_id : json) : io response :=
  action <- py_get params "action" JNull ;;
  project_id <- py_get params "project_id" JNull ;;
  items <- py_items params ;;
  invoke request_id "manage_task"
    (("action", action) :: ("project_id", project_id)
       :: dict_filter (not_in ["action"; "project_id"]) items).

Definition route (method params request_id : json) : io response :=
  if eq_str method "perform_rag_query" then perform_rag_query params request_id
  else if eq_str method "get_available_sources" then get_available_sources request_id
  else if eq_str method "search_code_examples" then search_code_examples params request_id
  else if eq_str method "manage_project" then manage_project params request_id
  else if eq_str method "manage_document" then manage_document params request_id
  else if eq_str method "manage_task" then manage_task params request_id
  else
    JSONResponse rt 404
      (error_envelope request_id (-32601)
         ("Method '" ++ py_str method ++ "' not found")).

Definition handle (request : json) : io response :=
  method <- py_get request "method" JNull ;;
  params <- py_get request "params" (JObj []) ;;
  request_id <- py_get request "id" (JInt 1) ;;
  if negb (truthy method) then
    JSONResponse rt 400
      (error_envelope request_id (-32600) "Method not specified")
  else
    make_context ;;
    try_except (route method params request_id)
               (on_tool_error rt method request_id).

Definition rpc_endpoint (request : json) : io response :=
  try_except (handle request) (on_endpoint_error rt).

End Endpoint.

End ToolBridge.

(* ===================================================================== *)
(** * _user_tools/beads-main/examples/python-agent/agent.py *)
(* ===================================================================== *)

Module Agent.

(** Standard output of a finished [bd] process, as [run_bd] reads it:
    blank after [strip()], a JSON document, or text that [json.loads]
    rejects with the given message. *)
Inductive stdout_text : Type :=
| Blank
| Document (v : json)
| Malformed (why : string).

(** How [subprocess.run] ends: the executable could not be started, or the
    process exited with a status (death by a signal is not modelled). *)
Inductive completed : Type :=
| NotStarted
| Exited (returncode : nat) (stdout : stdout_text).

(** The surrogates [os.fsencode] refuses: all but U+DC80..U+DCFF, which its
    error handler [surrogateescape] turns into bytes. *)
Definition refused (cp : N) : bool :=
  (is_surrogate cp && negb ((56448 <=? cp) && (cp <=? 56575)))%N.

Fixpoint surrogate_run (cps : list N) : nat :=
  match cps with
  | cp :: rest => if is_surrogate cp then S (surrogate_run rest) else O
  | [] => O
  end.

(** [str(e)] of the [UnicodeEncodeError] of the UTF-8 codec when its error
    handler refuses the code points [refuse]: it names the first refused
    surrogate and the run of surrogates it starts. *)
Fixpoint refusal (refuse : N -> bool) (position : nat) (cps : list N) : option string :=
  match cps with
  | [] => None
  | cp :: rest =>
      if refuse cp then
        Some ("'utf-8' codec can't encode "
              ++ match surrogate_run rest with
                 | O => "character '" ++ backslash ++ "u" ++ hex 4 cp
                        ++ "' in position " ++ decimal (Z.of_nat position)
                 | S more => "characters in position "
                             ++ decimal (Z.of_nat position) ++ "-"
                             ++ decimal (Z.of_nat (position + S more))
                 end
              ++ ": surrogates not allowed")
      else refusal refuse (S position) rest
  end.

(** What keeps one word of a command line from being handed to a new
    process: it does not encode, or it holds NUL. *)
Definition word_error (w : string) : option exn :=
  match refusal refused O (map fst (code_points w)) with
  | Some text => Some (Exn UnicodeEncodeError text)
  | None =>
      if has_nul w then Some (Exn ValueError "embedded null byte") else None
  end.

(** The command line as the new process gets it, or what the first word
    that cannot be converted raises. *)
Fixpoint arguments (cmd : list json) : exn + list string :=
  match cmd with
  | [] => inr []
  | JStr w :: rest =>
      match word_error w with
      | Some e => inl e
      | None =>
          match arguments rest with
          | inr ws => inr (w :: ws)
          | inl e => inl e
          end
      end
  | other :: _ =>
      inl (Exn TypeError
             ("expected str, bytes or os.PathLike object, not "
              ++ type_name other))
  end.

(** [obj[key]] for a [str] key. *)
Definition py_getitem {S} (obj : json) (key : string) : M S json :=
  match obj with
  | JObj members =>
      match dict_get key members with
      | Some v => ret v
      | None => raise (Exn KeyError (repr_str key))
      end
  | JList _ => raise (Exn TypeError "list indices must be integers or slices, not str")
  | JStr _ => raise (Exn TypeError "string indices must be integers, not 'str'")
  | _ => raise (Exn TypeError ("'" ++ type_name obj ++ "' object is not subscriptable"))
  end.

(** [obj.lower()]: only a [str] has the method. *)
Definition py_lower {S} (obj : json) : M S string :=
  match obj with
  | JStr s => ret (lower s)
  | _ => raise (Exn AttributeError
                  ("'" ++ type_name obj ++ "' object has no attribute 'lower'"))
  end.

(** [print(f"...")] of a line given by its parts, the constant texts and
    the values substituted between them.  [sys.stdout] is taken to encode
    UTF-8 and to refuse a lone surrogate (the error handler [strict],
    which CPython chooses where the encoding of the locale is UTF-8).  What
    is printed is not kept. *)
Definition py_print {S} (parts : list string) : M S unit :=
  match refusal is_surrogate O
          (flat_map (fun part => map fst (code_points part)) parts) with
  | Some text => raise (Exn UnicodeEncodeError text)
  | None => ret tt
  end.

Section Tracker.

(** The issue tracker behind the [bd] executable: a state and the reaction
    to one command line.  Of the lines the agent prints, those that show a
    value taken from the tracker are modelled; the lines of constant text
    and of numbers, which every UTF-8 terminal prints, are left out. *)
Variable tracker : Type.
Variable bd : list string -> tracker -> completed * tracker.

(** The tracker and the command lines executed so far, oldest first. *)
Record world : Type := {
  issues : tracker;
  commands : list (list string)
}.

Definition sh (A : Type) : Type := M world A.

(** [subprocess.run(cmd, ..., check=True)], giving the captured output. *)
Definition subprocess_run (cmd : list json) : sh stdout_text :=
  match arguments cmd with
  | inl e => raise e
  | inr argv =>
      fun st =>
        let (outcome, issues') := bd argv (issues st) in
        let st' := {| issues := issues'; commands := commands st ++ [argv] |} in
        match outcome with
        | NotStarted =>
            (Raise (Exn FileNotFoundError
                      "[Errno 2] No such file or directory: 'bd'"), st')
        | Exited O out => (Ret out, st')
        | Exited code _ =>
            (Raise (Exn CalledProcessError
                      ("Command '" ++ py_repr (JList (map JStr argv))
                       ++ "' returned non-zero exit status "
                       ++ decimal (Z.of_nat code) ++ ".")), st')
        end
  end.

Definition run_bd (args : list json) : sh json :=
  out <- subprocess_run ([JStr "bd"] ++ args ++ [JStr "--json"]) ;;
  match out with
  | Blank => ret (JObj [])
  | Document v => ret v
  | Malformed why => raise (Exn JSONDecodeError why)
  end.

Definition find_ready_work : sh (option json) :=
  ready <- run_bd [JStr "ready"; JStr "--limit"; JStr "1"] ;;
  match ready with
  | JList (first :: _) => ret (Some first)
  | _ => ret None
  end.

Definition claim_task (issue_id : json) : sh json :=
  py_print ["📋 Claiming task: "; py_str issue_id] ;;
  run_bd [JStr "update"; issue_id; JStr "--status"; JStr "in_progress"].

Definition create_issue (title description : string) (priority : Z)
    (issue_type : string) : sh json :=
  py_print ["✨ Creating issue: "; title] ;;
  let args := [JStr "create"; JStr title; JStr "-p"; JStr (decimal priority);
               JStr "-t"; JStr issue_type] in
  if negb (String.eqb description "")
  then run_bd (args ++ [JStr "-d"; JStr description])
  else run_bd args.

Definition link_discovery (discovered_id parent_id : json) : sh unit :=
  py_print ["🔗 Linking "; py_str discovered_id; " ← discovered-from ← ";
            py_str parent_id] ;;
  subprocess_run [JStr "bd"; JStr "dep"; JStr "add"; discovered_id; parent_id;
                  JStr "--type"; JStr "discovered-from"] ;;
  ret tt.

Definition complete_task (issue_id : json) (reason : string) : sh json :=
  py_print ["✅ Completing task: "; py_str issue_id; " - "; reason] ;;
  run_bd [JStr "close"; issue_id; JStr "--reason"; JStr reason].

Definition simulate_work (issue : json) : sh bool :=
  issue_id <- py_getitem issue "id" ;;
  title <- py_getitem issue "title" ;;
  py_print [char 10; "🤖 Working on: "; py_str title; " ("; py_str issue_id;
            ")"] ;;
  priority <- py_getitem issue "priority" ;;
  issue_type <- py_getitem issue "issue_type" ;;
  py_print ["   Priority: "; py_str priority; ", Type: "; py_str issue_type] ;;
  lowered <- py_lower title ;;
  if (contains "implement" lowered || contains "add" lowered)%bool then
    new_issue <- create_issue
                   ("Add tests for " ++ py_str title)
                   ("While implementing " ++ py_str issue_id
                    ++ ", noticed missing tests")
                   1 "task" ;;
    discovered_id <- py_getitem new_issue "id" ;;
    link_discovery discovered_id issue_id ;;
    ret true
  else ret false.

Definition run_once : sh bool :=
  found <- find_ready_work ;;
  match found with
  | None => ret false
  | Some issue =>
      if negb (truthy issue) then ret false
      else
        issue_id <- py_getitem issue "id" ;;
        claim_task issue_id ;;
        simulate_work issue ;;
        issue_id' <- py_getitem issue "id" ;;
        complete_task issue_id' "Implemented successfully" ;;
        ret true
  end.

(** [for i in range(iterations): if not self.run_once(): break]. *)
Fixpoint run_loop (iterations : nat) : sh unit :=
  match iterations with
  | O => ret tt
  | S remaining =>
      worked <- run_once ;;
      if worked then run_loop remaining else ret tt
  end.

(** [run(self, max_iterations: int = 10)]; [None] is the call that leaves
    the argument out. *)
Definition run (max_iterations : option Z) : sh unit :=
  let bound := match max_iterations with Some m => m | None => 10 end in
  run_loop (Z.to_nat bound).

(** [main()]: the exit status, where the program sets one itself. *)
Definition main : sh Z :=
  fun st =>
    match run None st with
    | (Ret _, st') => (Ret 0, st')
    | (Raise e, st') =>
        match exn_cls e with
        | CalledProcessError => (Ret 1, st')
        | _ => (Raise e, st')
        end
    end.

(** [cycles st outcomes st']: calling [run_once] again and again from [st]
    ends, one outcome per call, in [st']. *)
Inductive cycles : world -> list (res bool) -> world -> Prop :=
| cycles_none st : cycles st [] st
| cycles_next st r st1 rs st2 :
    run_once st = (r, st1) -> cycles st1 rs st2 -> cycles st (r :: rs) st2.

End Tracker.

Arguments subprocess_run {tracker} bd cmd _.
Arguments run_bd {tracker} bd args _.
Arguments find_ready_work {tracker} bd _.
Arguments claim_task {tracker} bd issue_id _.
Arguments create_issue {tracker} bd title description priority issue_type _.
Arguments link_discovery {tracker} bd discovered_id parent_id _.
Arguments complete_task {tracker} bd issue_id reason _.
Arguments simulate_work {tracker} bd issue _.
Arguments run_once {tracker} bd _.
Arguments run_loop {tracker} bd iterations _.
Arguments run {tracker} bd max_iterations _.
Arguments main {tracker} bd _.
Arguments cycles {tracker} bd _ _ _.
Arguments issues {tracker} _.
Arguments commands {tracker} _.

End Agent.

(* ===================================================================== *)
(** * What is observed of an answer *)
(* ===================================================================== *)

Module Observations.

(** The six operation names of the dispatch table. *)
Definition known_methods : list string :=
  ["perform_rag_query"; "get_available_sources"; "search_code_examples";
   "manage_project"; "manage_task"; "manage_document"].

(** The code of the error object of an envelope, when it has one. *)
Definition error_code (r : response) : option json :=
  match member "error" (content r) with
  | Some e => member "code" e
  | None => None
  end.

(** The store after one more log record, and after one more call. *)
Definition with_record (st : effects) (record : string) : effects :=
  {| calls := calls st; logged := logged st ++ [record] |}.

Definition with_call (st : effects) (c : call) : effects :=
  {| calls := calls st ++ [c]; logged := logged st |}.

(** The answer of the outer handler to the exception [e]. *)
Definition outer_answer (e : exn) (st : effects) : res response * effects :=
  (Ret internal_error_response,
   with_record st ("RPC endpoint error: " ++ exn_str e)).

(** How [rpc_endpoint] ends once the inner [try] has raised [tool_error]:
    the inner handler logs it and answers with the tier-2 envelope; when
    that envelope cannot be rendered, the outer handler answers. *)
Definition failure_answer (rt : runtime) (method request_id : json)
    (tool_error : exn) (st : effects) : res response * effects :=
  let st1 := with_record st ("Error calling MCP tool " ++ py_str method ++ ": "
                             ++ exn_str tool_error) in
  let envelope := error_envelope request_id (-32603) (exn_str tool_error) in
  if renderable envelope then (Ret (Rendered 500 envelope), st1)
  else outer_answer (render_exn rt envelope) st1.

(** A handler that failed on [params] before any call, or issued the one
    call [c] of the kind [allowed] and returned the envelope around what
    came back, or raised what the call raised. *)
Definition handler_outcome (rt : runtime) (wrap : json -> json)
    (allowed : call -> Prop) (request_id : json) (st : effects)
    (out : res response * effects) : Prop :=
  (exists text, out = (Raise (Exn AttributeError text), st))
  \/ (exists c,
        allowed c
        /\ out = (match downstream rt c with
                  | inr result =>
                      Ret (returned (result_envelope request_id (wrap result)))
                  | inl text => Raise (Exn LibraryError text)
                  end, with_call st c)).

(** [json.dumps(result)] as the value put into an envelope. *)
Definition dumped (result : json) : json := JStr (json_dumps result).

(** The paths the REST bridge asks for: four fixed ones, and those that
    begin with [projects/] and go on with what [params] gives as ids. *)
Definition backend_path (path : string) : Prop :=
  In path ["rag/query"; "rag/sources"; "rag/code-examples"; "projects"]
  \/ exists rest, path = "projects/" ++ rest.

(** An httpx request whose URL is the text [server_url], then [/api/], then
    one of those paths. *)
Definition backend_call (rt : runtime) (c : call) : Prop :=
  exists v path body,
    backend_path path
    /\ c = Http v (RestBridge.server_url rt ++ "/api/" ++ path) body.

(** The six tool functions the in-process bridge imports. *)
Definition tool_names : list string :=
  ["rag_search_knowledge_base"; "rag_get_available_sources";
   "rag_search_code_examples"; "manage_project"; "manage_document";
   "manage_task"].

(** An invocation of one of them. *)
Definition tool_call (c : call) : Prop :=
  exists name kwargs, In name tool_names /\ c = Tool name kwargs.

(** An answer carries the request id, or it is the envelope of the outer
    handler. *)
Definition id_or_opaque (request_id : json) (out : res response * effects) : Prop :=
  exists resp st',
    out = (Ret resp, st')
    /\ (member "id" (content resp) = Some request_id
        \/ resp = internal_error_response).

End Observations.
Export Observations.

(* ===================================================================== *)
(** * Concrete surroundings used in the examples *)
(* ===================================================================== *)

Module Examples.

(** The text that is the lone surrogate U+D800 and nothing else. *)
Definition lone_surrogate : string :=
  String (ascii_of_nat 237) (String (ascii_of_nat 160)
    (String (ascii_of_nat 128) EmptyString)).

(** A backend that answers every POST with a list, every GET with an object
    and refuses every PATCH; the tools answer with a text. *)
Definition sample_downstream (c : call) : string + json :=
  match c with
  | Http POST _ _ => inr (JList [JInt 1; JInt 2])
  | Http GET _ _ => inr (JObj [("sources", JList [])])
  | Http PATCH _ _ => inl "Server error '500 Internal Server Error'"
  | Tool _ _ => inr (JStr "done")
  end.

(** What CPython says of an envelope whose [id] is a text that starts with
    the lone surrogate. *)
Definition sample_render_error (content : json) : string :=
  "'utf-8' codec can't encode character '" ++ backslash
  ++ "ud800' in position 23: surrogates not allowed".

Definition sample_runtime : runtime :=
  {| getenv := fun _ => None;
     downstream := sample_downstream;
     context_error := None;
     render_error := sample_render_error |}.

(** The same surroundings when the MCP context cannot be built. *)
Definition broken_context_runtime : runtime :=
  {| getenv := fun _ => None;
     downstream := sample_downstream;
     context_error := Some "unexpected keyword argument 'deps'";
     render_error := sample_render_error |}.

Definition rag_request : json :=
  JObj [("method", JStr "perform_rag_query");
        ("params", JObj [("query", JStr "foo")]);
        ("id", JInt 7)].

Definition update_project_request : json :=
  JObj [("method", JStr "manage_project");
        ("params", JObj [("action", JStr "update");
                         ("project_id", JStr "P1");
                         ("name", JStr "X")]);
        ("id", JInt 0)].

Definition update_task_request : json :=
  JObj [("method", JStr "manage_task");
        ("params", JObj [("action", JStr "update");
                         ("project_id", JStr "P1");
                         ("task_id", JStr "T1");
                         ("title", JStr "T")]);
        ("id", JInt 0)].

(** A tracker that plays back a script: one entry per command line. *)
Definition script : Type := list Agent.completed.

Definition playback (argv : list string) (s : script) : Agent.completed * script :=
  match s with
  | [] => (Agent.Exited 0 Agent.Blank, [])
  | c :: rest => (c, rest)
  end.

Definition bug_issue : json :=
  JObj [("id", JStr "bd-1"); ("title", JStr "Fix crash on start");
        ("priority", JInt 1); ("issue_type", JStr "bug")].

Definition one_issue_script : script :=
  [Agent.Exited 0 (Agent.Document (JList [bug_issue]));
   Agent.Exited 0 Agent.Blank;
   Agent.Exited 0 Agent.Blank;
   Agent.Exited 0 (Agent.Document (JList []))].

End Examples.
Export Examples.

(* ===================================================================== *)
(** * Vocabulary for the properties of the agent *)
(* ===================================================================== *)

Module Outcomes.

(** The command lines of the agent. *)
Definition ready_command : list string :=
  ["bd"; "ready"; "--limit"; "1"; "--json"].

Definition update_command (issue_id : string) : list string :=
  ["bd"; "update"; issue_id; "--status"; "in_progress"; "--json"].

Definition close_command (issue_id : string) : list string :=
  ["bd"; "close"; issue_id; "--reason"; "Implemented successfully"; "--json"].

Definition create_command (title issue_id : string) : list string :=
  ["bd"; "create"; "Add tests for " ++ title; "-p"; "1"; "-t"; "task"; "-d";
   "While implementing " ++ issue_id ++ ", noticed missing tests"; "--json"].

Definition link_command (discovered_id issue_id : string) : list string :=
  ["bd"; "dep"; "add"; discovered_id; issue_id; "--type"; "discovered-from"].

(** Every word of the command line can be handed to a new process: it
    encodes for the file system and holds no NUL. *)
Definition startable (argv : list string) : bool :=
  forallb (fun w => match Agent.word_error w with
                    | None => true
                    | Some _ => false
                    end) argv.

(** The values can be shown on the terminal: the text [str] makes of each
    holds no lone surrogate. *)
Definition prints (values : list json) : bool :=
  forallb (fun v => negb (has_surrogate (py_str v))) values.

(** The output of [bd ready] holds nothing to work on: it is blank, not a
    list, an empty list, or a list whose first element is falsy. *)
Definition offers_nothing (out : Agent.stdout_text) : bool :=
  match out with
  | Agent.Blank => true
  | Agent.Document (JList (first :: _)) => negb (truthy first)
  | Agent.Document _ => true
  | Agent.Malformed _ => false
  end.

(** The statement [c] only appends to the command log: at most [n] command
    lines, each one starting with the word [bd]. *)
Definition appends {tracker A : Type} (n : nat)
    (c : M (Agent.world tracker) A) : Prop :=
  forall st, exists more,
    Agent.commands (snd (c st)) = (Agent.commands st ++ more)%list
    /\ (length more <= n)%nat
    /\ Forall (fun argv => hd_error argv = Some "bd") more.

(** An issue as [bd ready] reports it. *)
Definition issue_record (issue_id title : string) (priority issue_type : json) : json :=
  JObj [("id", JStr issue_id); ("title", JStr title);
        ("priority", priority); ("issue_type", issue_type)].

(** A scripted tracker with a feature request: the agent files a follow-up
    issue and links it. *)
Definition feature_script : script :=
  [Agent.Exited 0
     (Agent.Document
        (JList [issue_record "bd-2" "Implement login" (JInt 2) (JStr "feature")]));
   Agent.Exited 0 Agent.Blank;
   Agent.Exited 0 (Agent.Document (JObj [("id", JStr "bd-3")]));
   Agent.Exited 0 Agent.Blank;
   Agent.Exited 0 Agent.Blank;
   Agent.Exited 0 (Agent.Document (JList []))].

Definition fresh (s : script) : Agent.world script :=
  {| Agent.issues := s; Agent.commands := [] |}.

End Outcomes.
Export Outcomes.

(* ===================================================================== *)
(** * Dictionaries *)
(* ===================================================================== *)

Section DictFacts.

Lemma dict_get_filter (keep : string -> bool) (k : string) (d : dict) :
  dict_get k (dict_filter keep d) = if keep k then dict_get k d else None.
Proof.
  unfold dict_filter.
  induction d as [| [k' v] d IH]; simpl.
  - now destruct (keep k).
  - destruct (keep k') eqn:Hk'; simpl;
      destruct (String.eqb_spec k k') as [-> | Hne]; try exact IH.
    + now rewrite Hk'.
    + now rewrite IH, Hk'.
Qed.

Lemma dict_get_remove_other (k k' : string) (d : dict) :
  k <> k' -> dict_get k (dict_remove k' d) = dict_get k d.
Proof.
  intros Hne. unfold dict_remove. rewrite dict_get_filter.
  destruct (String.eqb_spec k k'); [contradiction | reflexivity].
Qed.

Lemma dict_get_remove_same (k : string) (d : dict) :
  dict_get k (dict_remove k d) = None.
Proof.
  unfold dict_remove. rewrite dict_get_filter, String.eqb_refl. reflexivity.
Qed.

Lemma dict_get_default_remove_other (k k' : string) (default : json) (d : dict) :
  k <> k' ->
  dict_get_default k default (dict_remove k' d) = dict_get_default k default d.
Proof.
  intros Hne. unfold dict_get_default. now rewrite dict_get_remove_other.
Qed.

End DictFacts.

(* ===================================================================== *)
(** * Rendering a response *)
(* ===================================================================== *)

Section Rendering.

Variable rt : runtime.

Lemma JSONResponse_run (status_code : Z) (c : json) (st : effects) :
  JSONResponse rt status_code c st
  = if renderable c then (Ret (Rendered status_code c), st)
    else (Raise (render_exn rt c), st).
Proof.
  unfold JSONResponse. now destruct (renderable c).
Qed.

(** The envelope of the outer handler can always be rendered. *)
Lemma on_endpoint_error_run (e : exn) (st : effects) :
  on_endpoint_error rt e st = outer_answer e st.
Proof. reflexivity. Qed.

Lemma on_tool_error_run (method request_id : json) (e : exn) (st : effects) :
  on_tool_error rt method request_id e st
  = JSONResponse rt 500 (error_envelope request_id (-32603) (exn_str e))
      (with_record st ("Error calling MCP tool " ++ py_str method ++ ": "
                       ++ exn_str e)).
Proof. reflexivity. Qed.

(** [try: ... except Exception as tool_error: ...] inside
    [try: ... except Exception as e: ...], once the inner body has raised. *)
Lemma inner_failure (method request_id : json) (e : exn) (st : effects) :
  try_except (on_tool_error rt method request_id e) (on_endpoint_error rt) st
  = failure_answer rt method request_id e st.
Proof.
  unfold try_except, failure_answer. rewrite on_tool_error_run, JSONResponse_run.
  now destruct (renderable _).
Qed.

(** An error envelope renders when its id and its message do. *)
Lemma renderable_error_envelope (request_id : json) (code : Z) (message : string) :
  renderable (error_envelope request_id code message)
  = (renderable request_id && negb (has_surrogate message))%bool.
Proof.
  unfold renderable, error_envelope, error_object.
  cbn [nonfinite surrogates existsb snd fst].
  change (has_surrogate "jsonrpc") with false.
  change (has_surrogate "2.0") with false.
  change (has_surrogate "id") with false.
  change (has_surrogate "error") with false.
  change (has_surrogate "code") with false.
  change (has_surrogate "message") with false.
  destruct (nonfinite request_id), (surrogates request_id),
    (has_surrogate message); reflexivity.
Qed.

Lemma renderable_with_plain_message (request_id : json) (code : Z) (message : string) :
  has_surrogate message = false ->
  renderable (error_envelope request_id code message) = renderable request_id.
Proof.
  intros H. rewrite renderable_error_envelope, H. apply andb_true_r.
Qed.

End Rendering.

(* ===================================================================== *)
(** * The two endpoints, step by step *)
(* ===================================================================== *)

Create HintDb served.

Ltac fails_on_params :=
  left; eexists; reflexivity.

Ltac fixed_path := left; simpl; tauto.

Ltac project_path := right; eexists; reflexivity.

Section Endpoints.

Variable rt : runtime.

#[local] Arguments append : simpl never.

Lemma eq_str_false (v : json) (name : string) :
  v <> JStr name -> eq_str v name = false.
Proof.
  intros Hne. destruct v; simpl; try reflexivity.
  destruct (String.eqb_spec s name) as [-> | ]; [now elim Hne | reflexivity].
Qed.

Lemma method_is (members : dict) (name : string) :
  dict_get "method" members = Some (JStr name) ->
  name <> "" ->
  dict_get_default "method" JNull members = JStr name
  /\ truthy (JStr name) = true.
Proof.
  intros Hm Hne. unfold dict_get_default. rewrite Hm. split; [reflexivity |].
  simpl. destruct (String.eqb_spec name ""); [contradiction | reflexivity].
Qed.

(** A request object whose [method] is falsy: the 400 envelope, or the
    outer handler when that envelope cannot be rendered. *)
Lemma rest_falsy_method (members : dict) (st : effects) :
  let request_id := dict_get_default "id" (JInt 1) members in
  let envelope := error_envelope request_id (-32600) "Method not specified" in
  truthy (dict_get_default "method" JNull members) = false ->
  RestBridge.rpc_endpoint rt (JObj members) st
  = if renderable request_id then (Ret (method_not_specified request_id), st)
    else outer_answer (render_exn rt envelope) st.
Proof.
  intros request_id envelope Hfalsy.
  unfold RestBridge.rpc_endpoint, RestBridge.handle, try_except, bind; simpl.
  rewrite Hfalsy; simpl. rewrite JSONResponse_run.
  fold request_id. fold envelope.
  rewrite <- (renderable_with_plain_message request_id (-32600)
                "Method not specified" eq_refl).
  fold envelope. now destruct (renderable envelope).
Qed.

Lemma tool_falsy_method (members : dict) (st : effects) :
  let request_id := dict_get_default "id" (JInt 1) members in
  let envelope := error_envelope request_id (-32600) "Method not specified" in
  truthy (dict_get_default "method" JNull members) = false ->
  ToolBridge.rpc_endpoint rt (JObj members) st
  = if renderable request_id then (Ret (method_not_specified request_id), st)
    else outer_answer (render_exn rt envelope) st.
Proof.
  intros request_id envelope Hfalsy.
  unfold ToolBridge.rpc_endpoint, ToolBridge.handle, try_except, bind; simpl.
  rewrite Hfalsy; simpl. rewrite JSONResponse_run.
  fold request_id. fold envelope.
  rewrite <- (renderable_with_plain_message request_id (-32600)
                "Method not specified" eq_refl).
  fold envelope. now destruct (renderable envelope).
Qed.

(** A request object whose [method] is truthy: what the dispatch returned,
    or the answer to what it raised. *)
Lemma rest_truthy_method (members : dict) (st : effects) :
  let request_id := dict_get_default "id" (JInt 1) members in
  let method := dict_get_default "method" JNull members in
  truthy method = true ->
  RestBridge.rpc_endpoint rt (JObj members) st
  = match RestBridge.route rt method
            (dict_get_default "params" (JObj []) members) request_id st with
    | (Ret resp, st') => (Ret resp, st')
    | (Raise e, st') => failure_answer rt method request_id e st'
    end.
Proof.
  intros request_id method Htruthy.
  unfold RestBridge.rpc_endpoint, RestBridge.handle, bind; simpl.
  fold request_id method. rewrite Htruthy; simpl.
  unfold try_except at 1 2.
  destruct (RestBridge.route rt method _ request_id st) as [[resp | e] st'];
    [reflexivity |].
  exact (inner_failure rt method request_id e st').
Qed.

Lemma tool_truthy_method (members : dict) (st : effects) :
  let request_id := dict_get_default "id" (JInt 1) members in
  let method := dict_get_default "method" JNull members in
  truthy method = true ->
  ToolBridge.rpc_endpoint rt (JObj members) st
  = match context_error rt with
    | Some text => outer_answer (Exn LibraryError text) st
    | None =>
        match ToolBridge.route rt method
                (dict_get_default "params" (JObj []) members) request_id st with
        | (Ret resp, st') => (Ret resp, st')
        | (Raise e, st') => failure_answer rt method request_id e st'
        end
    end.
Proof.
  intros request_id method Htruthy.
  unfold ToolBridge.rpc_endpoint, ToolBridge.handle, ToolBridge.make_context,
    bind; simpl.
  fold request_id method. rewrite Htruthy; simpl.
  destruct (context_error rt) as [text |]; [reflexivity |].
  simpl. unfold try_except at 1 2.
  destruct (ToolBridge.route rt method _ request_id st) as [[resp | e] st'];
    [reflexivity |].
  exact (inner_failure rt method request_id e st').
Qed.

(** A request that is not a dict is answered by the outer handler. *)
Lemma rest_not_an_object (request : json) (st : effects) :
  (forall members, request <> JObj members) ->
  RestBridge.rpc_endpoint rt request st
  = outer_answer
      (Exn AttributeError
         ("'" ++ type_name request ++ "' object has no attribute 'get'")) st.
Proof.
  intros Hno. destruct request; try reflexivity. now elim (Hno members).
Qed.

(** The handlers of the REST bridge. *)
Lemma rest_forward_outcome (request_id : json) (v : verb) (path : string)
    (body : option json) (st : effects) :
  backend_path path ->
  handler_outcome rt dumped (backend_call rt) request_id st
    (RestBridge.forward rt request_id
       (Http v (RestBridge.server_url rt ++ "/api/" ++ path) body) st).
Proof.
  intros Hpath. right. eexists. split; [now exists v, path, body |].
  unfold RestBridge.forward, issue, bind, ret, with_call, dumped.
  now destruct (downstream rt _).
Qed.

Lemma rest_route_outcome (method params request_id : json) (st : effects) :
  handler_outcome rt dumped (backend_call rt) request_id st
    (RestBridge.route rt method params request_id st)
  \/ RestBridge.route rt method params request_id st
     = JSONResponse rt 404 (content (method_not_found request_id method)) st.
Proof.
  unfold RestBridge.route.
  destruct (eq_str method "perform_rag_query").
  { left. unfold RestBridge.perform_rag_query.
    destruct params; try fails_on_params.
    unfold py_get, bind, ret; simpl.
    apply (rest_forward_outcome request_id POST "rag/query"); fixed_path. }
  destruct (eq_str method "get_available_sources").
  { left. apply (rest_forward_outcome request_id GET "rag/sources" None); fixed_path. }
  destruct (eq_str method "search_code_examples").
  { left. unfold RestBridge.search_code_examples.
    destruct params; try fails_on_params.
    unfold py_get, bind, ret; simpl.
    apply (rest_forward_outcome request_id POST "rag/code-examples"); fixed_path. }
  destruct (eq_str method "manage_project").
  { left. unfold RestBridge.manage_project.
    destruct params; try fails_on_params.
    unfold py_get, py_items, bind, ret; simpl.
    destruct (eq_str _ "create");
      [apply (rest_forward_outcome request_id POST "projects"); fixed_path |].
    destruct (eq_str _ "get").
    - apply (rest_forward_outcome request_id GET ("projects/" ++ _) None); project_path.
    - apply (rest_forward_outcome request_id PATCH ("projects/" ++ _)); project_path. }
  destruct (eq_str method "manage_task").
  { left. unfold RestBridge.manage_task.
    destruct params; try fails_on_params.
    unfold py_get, py_items, bind, ret; simpl.
    destruct (eq_str _ "create").
    - apply (rest_forward_outcome request_id POST ("projects/" ++ _)); project_path.
    - apply (rest_forward_outcome request_id PATCH ("projects/" ++ _)); project_path. }
  destruct (eq_str method "manage_document").
  { left. unfold RestBridge.manage_document.
    destruct params; try fails_on_params.
    unfold py_get, py_items, bind, ret; simpl.
    destruct (eq_str _ "create").
    - apply (rest_forward_outcome request_id POST ("projects/" ++ _)); project_path.
    - apply (rest_forward_outcome request_id PATCH ("projects/" ++ _)); project_path. }
  now right.
Qed.

(** The handlers of the in-process bridge. *)
Lemma tool_invoke_outcome (request_id : json) (tool : string) (kwargs : dict)
    (st : effects) :
  In tool tool_names ->
  handler_outcome rt (fun result => result) tool_call request_id st
    (ToolBridge.invoke rt request_id tool kwargs st).
Proof.
  intros Hin. right. eexists. split; [now exists tool, kwargs |].
  unfold ToolBridge.invoke, issue, bind, ret, with_call.
  now destruct (downstream rt _).
Qed.

#[local] Hint Extern 1 (handler_outcome _ _ tool_call _ _ _) =>
  apply tool_invoke_outcome; simpl; tauto : served.

Lemma tool_route_outcome (method params request_id : json) (st : effects) :
  handler_outcome rt (fun result => result) tool_call request_id st
    (ToolBridge.route rt method params request_id st)
  \/ ToolBridge.route rt method params request_id st
     = JSONResponse rt 404 (content (method_not_found request_id method)) st.
Proof.
  unfold ToolBridge.route.
  destruct (eq_str method "perform_rag_query").
  { left. unfold ToolBridge.perform_rag_query.
    destruct params; try fails_on_params.
    unfold py_get, bind, ret; simpl. auto with served. }
  destruct (eq_str method "get_available_sources").
  { left. auto with served. }
  destruct (eq_str method "search_code_examples").
  { left. unfold ToolBridge.search_code_examples.
    destruct params; try fails_on_params.
    unfold py_get, bind, ret; simpl. auto with served. }
  destruct (eq_str method "manage_project").
  { left. unfold ToolBridge.manage_project.
    destruct params; try fails_on_params.
    unfold py_get, py_items, bind, ret; simpl. auto with served. }
  destruct (eq_str method "manage_document").
  { left. unfold ToolBridge.manage_document.
    destruct params; try fails_on_params.
    unfold py_get, py_items, bind, ret; simpl. auto with served. }
  destruct (eq_str method "manage_task").
  { left. unfold ToolBridge.manage_task.
    destruct params; try fails_on_params.
    unfold py_get, py_items, bind, ret; simpl. auto with served. }
  now right.
Qed.

End Endpoints.

Section Answers.

Variable rt : runtime.

#[local] Arguments append : simpl never.

(** Every way the REST bridge answers a request object. *)
Lemma rest_answers (members : dict) (st : effects) :
  let request_id := dict_get_default "id" (JInt 1) members in
  let method := dict_get_default "method" JNull members in
  let out := RestBridge.rpc_endpoint rt (JObj members) st in
  out = (Ret (method_not_specified request_id), st)
  \/ (exists e, out = outer_answer e st)
  \/ out = (Ret (method_not_found request_id method), st)
  \/ (exists e, out = failure_answer rt method request_id e st)
  \/ (exists c result,
        backend_call rt c /\ downstream rt c = inr result
        /\ out = (Ret (returned (result_envelope request_id (dumped result))),
                  with_call st c))
  \/ (exists c text,
        backend_call rt c /\ downstream rt c = inl text
        /\ out = failure_answer rt method request_id (Exn LibraryError text)
                   (with_call st c)).
Proof.
  intros request_id method out. subst out.
  destruct (truthy method) eqn:Htruthy.
  - rewrite (rest_truthy_method rt members st Htruthy).
    fold request_id method.
    destruct (rest_route_outcome rt method
                (dict_get_default "params" (JObj []) members) request_id st)
      as [[(text & Hr) | (c & Hc & Hr)] | Hr]; rewrite Hr.
    + right; right; right; left. eexists. reflexivity.
    + destruct (downstream rt c) as [text | result] eqn:Hdown.
      * do 5 right. exists c, text. auto.
      * do 4 right; left. exists c, result. auto.
    + rewrite JSONResponse_run. destruct (renderable _).
      * right; right; left. reflexivity.
      * right; right; right; left. eexists. reflexivity.
  - rewrite (rest_falsy_method rt members st Htruthy). fold request_id.
    destruct (renderable request_id).
    + now left.
    + right; left. eexists. reflexivity.
Qed.

(** Every way the in-process bridge answers a request object. *)
Lemma tool_answers (members : dict) (st : effects) :
  let request_id := dict_get_default "id" (JInt 1) members in
  let method := dict_get_default "method" JNull members in
  let out := ToolBridge.rpc_endpoint rt (JObj members) st in
  out = (Ret (method_not_specified request_id), st)
  \/ (exists e, out = outer_answer e st)
  \/ out = (Ret (method_not_found request_id method), st)
  \/ (exists e, out = failure_answer rt method request_id e st)
  \/ (exists c result,
        tool_call c /\ downstream rt c = inr result
        /\ out = (Ret (returned (result_envelope request_id result)),
                  with_call st c))
  \/ (exists c text,
        tool_call c /\ downstream rt c = inl text
        /\ out = failure_answer rt method request_id (Exn LibraryError text)
                   (with_call st c)).
Proof.
  intros request_id method out. subst out.
  destruct (truthy method) eqn:Htruthy.
  - rewrite (tool_truthy_method rt members st Htruthy).
    fold request_id method.
    destruct (context_error rt) as [failure |].
    { right; left. eexists. reflexivity. }
    destruct (tool_route_outcome rt method
                (dict_get_default "params" (JObj []) members) request_id st)
      as [[(text & Hr) | (c & Hc & Hr)] | Hr]; rewrite Hr.
    + right; right; right; left. eexists. reflexivity.
    + destruct (downstream rt c) as [text | result] eqn:Hdown.
      * do 5 right. exists c, text. auto.
      * do 4 right; left. exists c, result. auto.
    + rewrite JSONResponse_run. destruct (renderable _).
      * right; right; left. reflexivity.
      * right; right; right; left. eexists. reflexivity.
  - rewrite (tool_falsy_method rt members st Htruthy). fold request_id.
    destruct (renderable request_id).
    + now left.
    + right; left. eexists. reflexivity.
Qed.

(** The answer to a failure of the dispatch is the tier-2 envelope with the
    request id, or the envelope of the outer handler. *)
Lemma failure_answer_cases (method request_id : json) (e : exn) (st : effects) :
  let st1 := with_record st ("Error calling MCP tool " ++ py_str method ++ ": "
                             ++ exn_str e) in
  failure_answer rt method request_id e st
  = (Ret (tool_error_response request_id e), st1)
  \/ exists record,
       failure_answer rt method request_id e st
       = (Ret internal_error_response, with_record st1 record).
Proof.
  intros st1. unfold failure_answer. fold st1.
  destruct (renderable _); [now left | right; eexists; reflexivity].
Qed.

Lemma failure_answer_id (method request_id : json) (e : exn) (st : effects) :
  id_or_opaque request_id (failure_answer rt method request_id e st).
Proof.
  destruct (failure_answer_cases method request_id e st) as [H | [record H]];
    rewrite H; do 2 eexists; (split; [reflexivity |]); [now left | now right].
Qed.

Lemma rest_answer_id (members : dict) (st : effects) :
  id_or_opaque (dict_get_default "id" (JInt 1) members)
    (RestBridge.rpc_endpoint rt (JObj members) st).
Proof.
  destruct (rest_answers members st)
    as [H | [[e H] | [H | [[e H] | [(c & r & _ & _ & H) | (c & t & _ & _ & H)]]]]];
    rewrite H; try apply failure_answer_id;
    do 2 eexists; (split; [reflexivity |]); auto.
Qed.

Lemma tool_answer_id (members : dict) (st : effects) :
  id_or_opaque (dict_get_default "id" (JInt 1) members)
    (ToolBridge.rpc_endpoint rt (JObj members) st).
Proof.
  destruct (tool_answers members st)
    as [H | [[e H] | [H | [[e H] | [(c & r & _ & _ & H) | (c & t & _ & _ & H)]]]]];
    rewrite H; try apply failure_answer_id;
    do 2 eexists; (split; [reflexivity |]); auto.
Qed.

End Answers.

(* ===================================================================== *)
(** * Requests that name no method *)
(* ===================================================================== *)

Section NoMethod.

Variable rt : runtime.

(** C3, as the code has it.  A request object without a [method] key whose
    id can be rendered is answered with HTTP 400 and the error envelope of
    code -32600, message "Method not specified", carrying the request id (1
    when there is none); no call is issued and nothing is logged.  When the
    id cannot be rendered (it holds NaN, an infinity or a lone surrogate),
    building that response raises and the outer handler answers: HTTP 500,
    code -32603, no id, one log record, still no call. *)
Theorem missing_method_rejected (members : dict) (st : effects) :
  dict_get "method" members = None ->
  let request_id := dict_get_default "id" (JInt 1) members in
  RestBridge.rpc_endpoint rt (JObj members) st
  = if renderable request_id then
      (Ret (Rendered 400
              (JObj [("jsonrpc", JStr "2.0");
                     ("id", request_id);
                     ("error", JObj [("code", JInt (-32600));
                                     ("message", JStr "Method not specified")])])),
       st)
    else
      (Ret (Rendered 500
              (JObj [("jsonrpc", JStr "2.0");
                     ("error", JObj [("code", JInt (-32603));
                                     ("message", JStr "Internal server error")])])),
       {| calls := calls st;
          logged := logged st
                    ++ ["RPC endpoint error: "
                        ++ render_error rt
                             (error_envelope request_id (-32600)
                                "Method not specified")] |}).
Proof.
  intros Hmissing request_id.
  rewrite rest_falsy_method by (unfold dict_get_default; now rewrite Hmissing).
  fold request_id. now destruct (renderable request_id).
Qed.

(** C9, as the code has it.  A request object whose [method] key holds a
    falsy value is answered like the same request without the key, by both
    bridges: HTTP 400 with code -32600 when the id can be rendered, the
    envelope of the outer handler when it cannot, and in no case the 404 of
    an unknown method. *)
Theorem falsy_method_rejected_as_missing (members : dict) (v : json) (st : effects) :
  dict_get "method" members = Some v ->
  truthy v = false ->
  let request_id := dict_get_default "id" (JInt 1) members in
  let answer :=
    if renderable request_id then
      (Ret (Rendered 400
              (error_envelope request_id (-32600) "Method not specified")), st)
    else
      (Ret (Rendered 500 internal_error_envelope),
       {| calls := calls st;
          logged := logged st
                    ++ ["RPC endpoint error: "
                        ++ render_error rt
                             (error_envelope request_id (-32600)
                                "Method not specified")] |}) in
  RestBridge.rpc_endpoint rt (JObj members) st = answer
  /\ RestBridge.rpc_endpoint rt (JObj (dict_remove "method" members)) st = answer
  /\ ToolBridge.rpc_endpoint rt (JObj members) st = answer
  /\ ToolBridge.rpc_endpoint rt (JObj (dict_remove "method" members)) st = answer.
Proof.
  intros Hv Hfalsy request_id answer.
  assert (Hhere : truthy (dict_get_default "method" JNull members) = false).
  { unfold dict_get_default. now rewrite Hv. }
  assert (Hgone : truthy (dict_get_default "method" JNull
                            (dict_remove "method" members)) = false).
  { unfold dict_get_default. now rewrite dict_get_remove_same. }
  assert (Hid : dict_get_default "id" (JInt 1) (dict_remove "method" members)
                = request_id).
  { apply dict_get_default_remove_other. discriminate. }
  assert (Hanswer :
            (if renderable request_id
             then (Ret (method_not_specified request_id), st)
             else outer_answer
                    (render_exn rt (error_envelope request_id (-32600)
                                      "Method not specified")) st)
            = answer).
  { unfold answer. now destruct (renderable request_id). }
  repeat split.
  - rewrite (rest_falsy_method rt members st Hhere). exact Hanswer.
  - rewrite (rest_falsy_method rt _ st Hgone), Hid. exact Hanswer.
  - rewrite (tool_falsy_method rt members st Hhere). exact Hanswer.
  - rewrite (tool_falsy_method rt _ st Hgone), Hid. exact Hanswer.
Qed.

End NoMethod.

Lemma missing_method_rejected_witness :
  dict_get "method" [("id", JStr "a")] = None
  /\ RestBridge.rpc_endpoint sample_runtime (JObj [("id", JStr "a")]) no_effects
     = (Ret (Rendered 400
               (JObj [("jsonrpc", JStr "2.0");
                      ("id", JStr "a");
                      ("error", JObj [("code", JInt (-32600));
                                      ("message", JStr "Method not specified")])])),
        no_effects).
Proof.
  split; [reflexivity |].
  exact (missing_method_rejected sample_runtime [("id", JStr "a")] no_effects
           eq_refl).
Defined.

(** C3, as the specification words it, fails: the request [{"id": "\ud800"}]
    lacks a method and is answered with HTTP 500 and code -32603, not with
    HTTP 400 and code -32600. *)
Lemma missing_method_with_unrenderable_id :
  let members := [("id", JStr lone_surrogate)] in
  dict_get "method" members = None
  /\ RestBridge.rpc_endpoint sample_runtime (JObj members) no_effects
     = (Ret (Rendered 500 internal_error_envelope),
        {| calls := [];
           logged := ["RPC endpoint error: "
                      ++ sample_render_error
                           (error_envelope (JStr lone_surrogate) (-32600)
                              "Method not specified")] |})
  /\ Rendered 500 internal_error_envelope
     <> Rendered 400
          (error_envelope (JStr lone_surrogate) (-32600) "Method not specified").
Proof.
  repeat split; try reflexivity. discriminate.
Qed.

Lemma falsy_method_rejected_as_missing_witness :
  let members := [("method", JStr ""); ("id", JInt 4)] in
  let answer :=
    (Ret (Rendered 400 (error_envelope (JInt 4) (-32600) "Method not specified")),
     no_effects) in
  RestBridge.rpc_endpoint sample_runtime (JObj members) no_effects = answer
  /\ RestBridge.rpc_endpoint sample_runtime (JObj (dict_remove "method" members))
       no_effects = answer
  /\ ToolBridge.rpc_endpoint sample_runtime (JObj members) no_effects = answer
  /\ ToolBridge.rpc_endpoint sample_runtime (JObj (dict_remove "method" members))
       no_effects = answer.
Proof.
  exact (falsy_method_rejected_as_missing sample_runtime
           [("method", JStr ""); ("id", JInt 4)] (JStr "") no_effects
           (eq_refl : dict_get "method" [("method", JStr ""); ("id", JInt 4)]
                      = Some (JStr ""))
           (eq_refl : truthy (JStr "") = false)).
Defined.

(** C9, as the specification words it, fails: the request
    [{"method": "", "id": "\ud800"}] has a falsy method and is answered with
    HTTP 500 and code -32603, not with the 400 of code -32600. *)
Lemma falsy_method_with_unrenderable_id :
  let members := [("method", JStr ""); ("id", JStr lone_surrogate)] in
  dict_get "method" members = Some (JStr "")
  /\ truthy (JStr "") = false
  /\ fst (RestBridge.rpc_endpoint sample_runtime (JObj members) no_effects)
     = Ret (Rendered 500 internal_error_envelope)
  /\ fst (ToolBridge.rpc_endpoint sample_runtime (JObj members) no_effects)
     = Ret (Rendered 500 internal_error_envelope)
  /\ error_code (Rendered 500 internal_error_envelope) = Some (JInt (-32603)).
Proof.
  repeat split; reflexivity.
Qed.

(* ===================================================================== *)
(** * Unknown methods and the request id *)
(* ===================================================================== *)

Section RequestId.

Variable rt : runtime.

#[local] Arguments append : simpl never.



(** C10. The envelopes of code -32600 and -32601 that answer a request
    object carry its [id], or 1 when it has none; the envelope of the outer
    handler has no [id] member, and it is the only answer without one. *)
Theorem tier1_errors_echo_id
    (members : dict) (st st' : effects) (resp : response) :
  RestBridge.rpc_endpoint rt (JObj members) st = (Ret resp, st') ->
  error_code resp = Some (JInt (-32600))
  \/ error_code resp = Some (JInt (-32601)) ->
  member "id" (content resp)
  = Some (match dict_get "id" members with
          | Some supplied => supplied
          | None => JInt 1
          end)
  /\ member "id" (content internal_error_response) = None
  /\ (forall request st0 st0' resp0,
        RestBridge.rpc_endpoint rt request st0 = (Ret resp0, st0') ->
        member "id" (content resp0) = None ->
        resp0 = internal_error_response).
Proof.
  intros Hrun Hcode. split; [| split].
  - destruct (rest_answer_id rt members st) as (resp0 & st0 & Hout & Hcases).
    rewrite Hrun in Hout. injection Hout as <- <-.
    destruct Hcases as [Hcarried | ->]; [exact Hcarried |].
    destruct Hcode as [Hcode | Hcode]; discriminate.
  - reflexivity.
  - intros request st0 st0' resp0 Hrun0 Hnone.
    destruct request;
      try (rewrite rest_not_an_object in Hrun0 by discriminate;
           now injection Hrun0 as <- _).
    destruct (rest_answer_id rt members0 st0) as (resp1 & st1 & Hout & Hcases).
    rewrite Hrun0 in Hout. injection Hout as <- <-.
    destruct Hcases as [Hcarried | ->]; [| reflexivity].
    rewrite Hcarried in Hnone. discriminate.
Qed.

(** C6. Whenever a failure leaves the body of the outer [try], the endpoint
    answers HTTP 500 with the envelope of code -32603 and the fixed message
    "Internal server error", which has no [id] member, after one log record
    that names the failure; it issues no further call. *)
Theorem endpoint_failure_is_opaque
    (request : json) (st st1 : effects) (e : exn) :
  RestBridge.handle rt request st = (Raise e, st1) ->
  let envelope :=
    JObj [("jsonrpc", JStr "2.0");
          ("error", JObj [("code", JInt (-32603));
                          ("message", JStr "Internal server error")])] in
  RestBridge.rpc_endpoint rt request st
  = (Ret (Rendered 500 envelope),
     {| calls := calls st1;
        logged := logged st1 ++ ["RPC endpoint error: " ++ exn_str e] |})
  /\ member "id" envelope = None.
Proof.
  intros Hraise envelope. split; [| reflexivity].
  unfold RestBridge.rpc_endpoint, try_except. rewrite Hraise.
  apply on_endpoint_error_run.
Qed.

(** What leaves the body of the outer [try] for a request object: the
    failure to render the 400 response, before anything was done, or the
    failure to render the tier-2 response, after the inner handler has
    logged. *)
Lemma rest_handle_raises (members : dict) (st st1 : effects) (e : exn) :
  RestBridge.handle rt (JObj members) st = (Raise e, st1) ->
  exists envelope,
    renderable envelope = false
    /\ e = render_exn rt envelope
    /\ (st1 = st \/ exists st0 record, st1 = with_record st0 record).
Proof.
  unfold RestBridge.handle, bind; simpl.
  destruct (truthy _); simpl.
  - unfold try_except.
    destruct (RestBridge.route rt _ _ _ st) as [[resp | e0] st0];
      [discriminate |].
    rewrite on_tool_error_run, JSONResponse_run.
    destruct (renderable _) eqn:Hrender; [discriminate |].
    intros H. injection H as <- <-. eexists. split; [exact Hrender |].
    split; [reflexivity |]. right. do 2 eexists. reflexivity.
  - rewrite JSONResponse_run.
    destruct (renderable _) eqn:Hrender; [discriminate |].
    intros H. injection H as <- <-. eexists. split; [exact Hrender |].
    split; [reflexivity | now left].
Qed.

End RequestId.




Lemma tier1_errors_echo_id_witness :
  member "id"
    (content (method_not_found (JInt 1) (JStr "drop_tables")))
  = Some (JInt 1).
Proof.
  apply (tier1_errors_echo_id sample_runtime
           [("method", JStr "drop_tables")]
           no_effects no_effects
           (method_not_found (JInt 1) (JStr "drop_tables"))).
  - reflexivity.
  - right. reflexivity.
Defined.

Lemma endpoint_failure_is_opaque_witness :
  let request := JObj [("id", JStr lone_surrogate)] in
  let e := render_exn sample_runtime
             (error_envelope (JStr lone_surrogate) (-32600)
                "Method not specified") in
  let envelope :=
    JObj [("jsonrpc", JStr "2.0");
          ("error", JObj [("code", JInt (-32603));
                          ("message", JStr "Internal server error")])] in
  RestBridge.handle sample_runtime request no_effects = (Raise e, no_effects)
  /\ RestBridge.rpc_endpoint sample_runtime request no_effects
     = (Ret (Rendered 500 envelope),
        {| calls := [];
           logged := [] ++ ["RPC endpoint error: " ++ exn_str e] |})
  /\ member "id" envelope = None.
Proof.
  split; [reflexivity |].
  exact (endpoint_failure_is_opaque sample_runtime
           (JObj [("id", JStr lone_surrogate)]) no_effects no_effects
           (render_exn sample_runtime
              (error_envelope (JStr lone_surrogate) (-32600)
                 "Method not specified"))
           eq_refl).
Defined.

(* ===================================================================== *)
(** * The health probe *)
(* ===================================================================== *)

(** C7. [health_endpoint] returns the same three-member body whatever the
    surroundings are, issues no call and writes no log record. *)
Theorem health_is_constant (st : effects) :
  health_endpoint st
  = (Ret (JObj [("status", JStr "healthy");
                ("service", JStr "mcp-http-bridge");
                ("tools_available", JBool true)]),
     st).
Proof. reflexivity. Qed.

(* ===================================================================== *)
(** * What each operation sends *)
(* ===================================================================== *)

Lemma string_append_assoc (a b c : string) : (a ++ b) ++ c = a ++ (b ++ c).
Proof.
  induction a as [| ch a IH]; simpl; [reflexivity | now rewrite IH].
Qed.

Section CallsIssued.

Variable rt : runtime.

#[local] Arguments append : simpl never.

Lemma forward_calls (request_id : json) (c : call) (st : effects) :
  calls (snd (RestBridge.forward rt request_id c st)) = (calls st ++ [c])%list.
Proof.
  unfold RestBridge.forward, issue, bind. now destruct (downstream rt c).
Qed.

Lemma invoke_calls (request_id : json) (tool : string) (kwargs : dict)
    (st : effects) :
  calls (snd (ToolBridge.invoke rt request_id tool kwargs st))
  = (calls st ++ [Tool tool kwargs])%list.
Proof.
  unfold ToolBridge.invoke, issue, bind. now destruct (downstream rt _).
Qed.

Lemma failure_answer_calls (method request_id : json) (e : exn) (st : effects) :
  calls (snd (failure_answer rt method request_id e st)) = calls st.
Proof.
  unfold failure_answer. now destruct (renderable _).
Qed.

(** The calls of a request that names a method are those of the dispatch. *)
Lemma rest_calls_via_route (members : dict) (st : effects) :
  truthy (dict_get_default "method" JNull members) = true ->
  calls (snd (RestBridge.rpc_endpoint rt (JObj members) st))
  = calls (snd (RestBridge.route rt (dict_get_default "method" JNull members)
                  (dict_get_default "params" (JObj []) members)
                  (dict_get_default "id" (JInt 1) members) st)).
Proof.
  intros Htruthy. rewrite (rest_truthy_method rt members st Htruthy).
  destruct (RestBridge.route rt _ _ _ st) as [[resp | e] st']; [reflexivity |].
  apply failure_answer_calls.
Qed.

Lemma tool_calls_via_route (members : dict) (st : effects) :
  truthy (dict_get_default "method" JNull members) = true ->
  context_error rt = None ->
  calls (snd (ToolBridge.rpc_endpoint rt (JObj members) st))
  = calls (snd (ToolBridge.route rt (dict_get_default "method" JNull members)
                  (dict_get_default "params" (JObj []) members)
                  (dict_get_default "id" (JInt 1) members) st)).
Proof.
  intros Htruthy Hctx. rewrite (tool_truthy_method rt members st Htruthy), Hctx.
  destruct (ToolBridge.route rt _ _ _ st) as [[resp | e] st']; [reflexivity |].
  apply failure_answer_calls.
Qed.

End CallsIssued.

Ltac enter_rest rt Hm Hp :=
  let Hmethod := fresh "Hmethod" in
  let Htruthy := fresh "Htruthy" in
  destruct (method_is _ _ Hm ltac:(discriminate)) as [Hmethod Htruthy];
  rewrite rest_calls_via_route by (rewrite Hmethod; exact Htruthy);
  rewrite Hmethod; try rewrite Hp;
  unfold RestBridge.route; simpl.

Ltac enter_tool rt Hm Hp Hctx :=
  let Hmethod := fresh "Hmethod" in
  let Htruthy := fresh "Htruthy" in
  destruct (method_is _ _ Hm ltac:(discriminate)) as [Hmethod Htruthy];
  rewrite tool_calls_via_route by
    (first [exact Hctx | rewrite Hmethod; exact Htruthy]);
  rewrite Hmethod; try rewrite Hp;
  unfold ToolBridge.route; simpl.

Section ParameterMapping.

Variable rt : runtime.

#[local] Arguments append : simpl never.

(** The update branch of [manage_project] in the REST bridge: one PATCH to
    the project, whose body is [params] without the key [action]. *)
Lemma rest_update_project_call (members params : dict) (st : effects) :
  dict_get "method" members = Some (JStr "manage_project") ->
  dict_get_default "params" (JObj []) members = JObj params ->
  eq_str (dict_get_default "action" JNull params) "create" = false ->
  eq_str (dict_get_default "action" JNull params) "get" = false ->
  calls (snd (RestBridge.rpc_endpoint rt (JObj members) st))
  = (calls st
     ++ [Http PATCH
           (RestBridge.server_url rt ++ "/api/projects/"
            ++ py_str (dict_get_default "project_id" (JStr "") params))
           (Some (JObj (dict_filter (fun k => negb (String.eqb k "action"))
                          params)))])%list.
Proof.
  intros Hm Hp Hcreate Hget. enter_rest rt Hm Hp.
  unfold RestBridge.manage_project, py_get, py_items, bind, ret; simpl.
  rewrite Hcreate, Hget. apply forward_calls.
Qed.

(** The update branch keeps [project_id] in the body it sends. *)
Lemma rest_update_project_keeps_project_id (params : dict) :
  dict_get "project_id"
    (dict_filter (fun k => negb (String.eqb k "action")) params)
  = dict_get "project_id" params.
Proof. now rewrite dict_get_filter. Qed.

(** The update branch of [manage_task] sends [params] without [action],
    [project_id] and [task_id]. *)
Lemma rest_update_task_call (members params : dict) (st : effects) :
  dict_get "method" members = Some (JStr "manage_task") ->
  dict_get_default "params" (JObj []) members = JObj params ->
  eq_str (dict_get_default "action" JNull params) "create" = false ->
  calls (snd (RestBridge.rpc_endpoint rt (JObj members) st))
  = (calls st
     ++ [Http PATCH
           (RestBridge.server_url rt ++ "/api/projects/"
            ++ py_str (dict_get_default "project_id" (JStr "") params)
            ++ "/tasks/" ++ py_str (dict_get_default "task_id" (JStr "") params))
           (Some (JObj (dict_filter (not_in ["action"; "project_id"; "task_id"])
                          params)))])%list.
Proof.
  intros Hm Hp Hcreate. enter_rest rt Hm Hp.
  unfold RestBridge.manage_task, py_get, py_items, bind, ret; simpl.
  rewrite Hcreate. apply forward_calls.
Qed.

(** C2, as the code has it.  A [perform_rag_query] request whose [params]
    is a dict without [match_count] makes the REST bridge issue one search
    call with [match_count] 5, and so does the in-process bridge whenever
    the MCP context can be built (when it cannot, no tool is invoked).  When
    the call returns a value, the endpoint returns the success envelope with
    the request id: the in-process bridge puts the value under [result] as
    it is, the REST bridge puts there the text [json.dumps] makes of it. *)
Theorem rag_query_default_match_count (members params : dict) (st : effects) :
  dict_get "method" members = Some (JStr "perform_rag_query") ->
  dict_get_default "params" (JObj []) members = JObj params ->
  dict_get "match_count" params = None ->
  let request_id := dict_get_default "id" (JInt 1) members in
  let arguments :=
    [("query", dict_get_default "query" (JStr "") params);
     ("source_id", dict_get_default "source" JNull params);
     ("match_count", JInt 5)] in
  let posted :=
    Http POST (RestBridge.server_url rt ++ "/api/rag/query")
      (Some (JObj arguments)) in
  let invoked := Tool "rag_search_knowledge_base" arguments in
  let rest := RestBridge.rpc_endpoint rt (JObj members) st in
  let tool := ToolBridge.rpc_endpoint rt (JObj members) st in
  calls (snd rest) = (calls st ++ [posted])%list
  /\ match downstream rt posted with
     | inr result =>
         fst rest
         = Ret (returned (result_envelope request_id (JStr (json_dumps result))))
     | inl _ => True
     end
  /\ match context_error rt with
     | Some _ => calls (snd tool) = calls st
     | None =>
         calls (snd tool) = (calls st ++ [invoked])%list
         /\ match downstream rt invoked with
            | inr result =>
                fst tool = Ret (returned (result_envelope request_id result))
            | inl _ => True
            end
     end.
Proof.
  intros Hm Hp Hcount request_id arguments posted invoked rest tool.
  destruct (method_is _ _ Hm ltac:(discriminate)) as [Hmethod Htruthy].
  assert (Hfive : dict_get_default "match_count" (JInt 5) params = JInt 5).
  { unfold dict_get_default. now rewrite Hcount. }
  assert (Hrest : RestBridge.route rt (JStr "perform_rag_query") (JObj params)
                    request_id st
                  = RestBridge.forward rt request_id posted st).
  { unfold RestBridge.route; simpl.
    unfold RestBridge.perform_rag_query, py_get, bind, ret; simpl.
    now rewrite Hfive. }
  assert (Htool : ToolBridge.route rt (JStr "perform_rag_query") (JObj params)
                    request_id st
                  = ToolBridge.invoke rt request_id "rag_search_knowledge_base"
                      arguments st).
  { unfold ToolBridge.route; simpl.
    unfold ToolBridge.perform_rag_query, py_get, bind, ret; simpl.
    now rewrite Hfive. }
  split; [| split].
  - unfold rest. rewrite rest_calls_via_route by now rewrite Hmethod.
    rewrite Hmethod, Hp. fold request_id. rewrite Hrest. apply forward_calls.
  - unfold rest. rewrite rest_truthy_method by now rewrite Hmethod.
    rewrite Hmethod, Hp. fold request_id. rewrite Hrest.
    unfold RestBridge.forward, issue, bind.
    now destruct (downstream rt posted).
  - unfold tool. rewrite tool_truthy_method by now rewrite Hmethod.
    rewrite Hmethod, Hp. fold request_id.
    destruct (context_error rt) as [failure |]; [reflexivity |].
    rewrite Htool. unfold ToolBridge.invoke, issue, bind. fold invoked.
    destruct (downstream rt invoked) as [text | result]; simpl.
    + split; [| exact I]. apply failure_answer_calls.
    + split; reflexivity.
Qed.

(** X23. When the MCP context cannot be built, the in-process bridge
    answers every request that names a method, known or not, with the
    envelope of the outer handler: HTTP 500 without the request id, one log
    record, no tool invoked. *)
Lemma tool_context_failure (members : dict) (text : string) (st : effects) :
  truthy (dict_get_default "method" JNull members) = true ->
  context_error rt = Some text ->
  ToolBridge.rpc_endpoint rt (JObj members) st
  = (Ret internal_error_response,
     {| calls := calls st;
        logged := logged st ++ ["RPC endpoint error: " ++ text] |}).
Proof.
  intros Htruthy Hctx.
  rewrite (tool_truthy_method rt members st Htruthy), Hctx. reflexivity.
Qed.

(** X24. The in-process bridge hands [manage_project] the action (null
    when absent) and the rest of [params], [project_id] included, as keyword
    arguments, whatever the action is. *)
Lemma tool_manage_project_call (members params : dict) (st : effects) :
  dict_get "method" members = Some (JStr "manage_project") ->
  dict_get_default "params" (JObj []) members = JObj params ->
  context_error rt = None ->
  calls (snd (ToolBridge.rpc_endpoint rt (JObj members) st))
  = (calls st
     ++ [Tool "manage_project"
           (("action", dict_get_default "action" JNull params)
              :: dict_filter (fun k => negb (String.eqb k "action")) params)])%list.
Proof.
  intros Hm Hp Hctx. enter_tool rt Hm Hp Hctx.
  unfold ToolBridge.manage_project, py_get, py_items, bind, ret; simpl.
  apply invoke_calls.
Qed.

End ParameterMapping.

Lemma rag_query_default_match_count_witness :
  let arguments :=
    [("query", JStr "foo"); ("source_id", JNull); ("match_count", JInt 5)] in
  let rest := RestBridge.rpc_endpoint sample_runtime rag_request no_effects in
  let tool := ToolBridge.rpc_endpoint sample_runtime rag_request no_effects in
  calls (snd rest)
  = ([] ++ [Http POST "http://archon-server:8181/api/rag/query"
              (Some (JObj arguments))])%list
  /\ fst rest = Ret (returned (result_envelope (JInt 7) (JStr "[1, 2]")))
  /\ calls (snd tool)
     = ([] ++ [Tool "rag_search_knowledge_base" arguments])%list
  /\ fst tool = Ret (returned (result_envelope (JInt 7) (JStr "done"))).
Proof.
  destruct (rag_query_default_match_count sample_runtime
              [("method", JStr "perform_rag_query");
               ("params", JObj [("query", JStr "foo")]);
               ("id", JInt 7)]
              [("query", JStr "foo")] no_effects
              eq_refl eq_refl eq_refl) as (Hcalls & Hrest & Htool & Hresult).
  exact (conj Hcalls (conj Hrest (conj Htool Hresult))).
Defined.

(** C2, as the specification words it, fails in the REST bridge: the
    backend answered the list [[1, 2]] and the envelope holds the text
    ["[1, 2]"], which is another value. *)
Lemma rag_result_is_reencoded :
  let posted :=
    Http POST "http://archon-server:8181/api/rag/query"
      (Some (JObj [("query", JStr "foo"); ("source_id", JNull);
                   ("match_count", JInt 5)])) in
  let answer :=
    fst (RestBridge.rpc_endpoint sample_runtime rag_request no_effects) in
  calls (snd (RestBridge.rpc_endpoint sample_runtime rag_request no_effects))
  = [posted]
  /\ downstream sample_runtime posted = inr (JList [JInt 1; JInt 2])
  /\ answer = Ret (returned (result_envelope (JInt 7) (JStr "[1, 2]")))
  /\ result_envelope (JInt 7) (JStr "[1, 2]")
     <> result_envelope (JInt 7) (JList [JInt 1; JInt 2]).
Proof.
  repeat split; try reflexivity. discriminate.
Qed.

(** C1 at a concrete update request.  The REST bridge sends the PATCH with
    [project_id] still in the body, where the claim has it removed; the
    sibling branch of [manage_task] removes the keys it has put into the
    path. *)
Theorem manage_project_update_sends_project_id :
  calls (snd (RestBridge.rpc_endpoint sample_runtime update_project_request
                no_effects))
  = [Http PATCH "http://archon-server:8181/api/projects/P1"
       (Some (JObj [("project_id", JStr "P1"); ("name", JStr "X")]))]
  /\ JObj [("project_id", JStr "P1"); ("name", JStr "X")]
     <> JObj (dict_filter (not_in ["action"; "project_id"])
                [("action", JStr "update"); ("project_id", JStr "P1");
                 ("name", JStr "X")])
  /\ calls (snd (RestBridge.rpc_endpoint sample_runtime update_task_request
                   no_effects))
     = [Http PATCH "http://archon-server:8181/api/projects/P1/tasks/T1"
          (Some (JObj [("title", JStr "T")]))].
Proof.
  repeat split; try reflexivity. discriminate.
Qed.


(* ===================================================================== *)
(** * What each operation of the REST bridge sends *)
(* ===================================================================== *)

Section RestCalls.

Variable rt : runtime.

#[local] Arguments append : simpl never.

(** X3. The control keys of a comprehension [k not in [...]] are never
    forwarded, and every other key is forwarded with the value it has in
    [params]. *)
Theorem filtered_body_lookup (control : list string) (k : string) (params : dict) :
  dict_get k (dict_filter (not_in control) params)
  = if existsb (String.eqb k) control then None else dict_get k params.
Proof.
  rewrite dict_get_filter. unfold not_in.
  now destruct (existsb (String.eqb k) control).
Qed.

(** X4. [perform_rag_query] posts to [/api/rag/query] exactly three
    members: [query] (default the empty text), [source_id] taken from the
    key [source] (default null; a key [source_id] in [params] is not read)
    and [match_count] as supplied, 5 only when the key is absent.  Nothing
    else of [params] is forwarded. *)
Theorem rest_rag_query_call (members params : dict) (st : effects) :
  dict_get "method" members = Some (JStr "perform_rag_query") ->
  dict_get_default "params" (JObj []) members = JObj params ->
  calls (snd (RestBridge.rpc_endpoint rt (JObj members) st))
  = (calls st
     ++ [Http POST (RestBridge.server_url rt ++ "/api/rag/query")
           (Some (JObj
                    [("query",
                       match dict_get "query" params with
                       | Some query => query
                       | None => JStr ""
                       end);
                     ("source_id",
                       match dict_get "source" params with
                       | Some source => source
                       | None => JNull
                       end);
                     ("match_count",
                       match dict_get "match_count" params with
                       | Some match_count => match_count
                       | None => JInt 5
                       end)]))])%list.
Proof.
  intros Hm Hp. enter_rest rt Hm Hp.
  unfold RestBridge.perform_rag_query, py_get, bind, ret; simpl.
  apply forward_calls.
Qed.

(** X5. [search_code_examples] posts to [/api/rag/code-examples] the
    members [query], [source_id] (read from the key [source_id] this time)
    and [match_count], with the same defaults. *)
Theorem rest_code_examples_call (members params : dict) (st : effects) :
  dict_get "method" members = Some (JStr "search_code_examples") ->
  dict_get_default "params" (JObj []) members = JObj params ->
  calls (snd (RestBridge.rpc_endpoint rt (JObj members) st))
  = (calls st
     ++ [Http POST (RestBridge.server_url rt ++ "/api/rag/code-examples")
           (Some (JObj
                    [("query",
                       match dict_get "query" params with
                       | Some query => query
                       | None => JStr ""
                       end);
                     ("source_id",
                       match dict_get "source_id" params with
                       | Some source_id => source_id
                       | None => JNull
                       end);
                     ("match_count",
                       match dict_get "match_count" params with
                       | Some match_count => match_count
                       | None => JInt 5
                       end)]))])%list.
Proof.
  intros Hm Hp. enter_rest rt Hm Hp.
  unfold RestBridge.search_code_examples, py_get, bind, ret; simpl.
  apply forward_calls.
Qed.

(** X6. [get_available_sources] never looks at [params]: whatever the
    request carries there, a dict or not, it sends GET [/api/rag/sources]
    without a body.  When the call returns a value, the endpoint returns the
    success envelope around [json.dumps] of it.  When the call fails, the
    failure is logged and answered with the tier-2 envelope around its text,
    unless the request id keeps that envelope from being rendered: then the
    outer handler logs a second record and answers with its own envelope. *)
Theorem rest_sources_ignores_params (members : dict) (st : effects) :
  dict_get "method" members = Some (JStr "get_available_sources") ->
  let request_id := dict_get_default "id" (JInt 1) members in
  let c := Http GET (RestBridge.server_url rt ++ "/api/rag/sources") None in
  RestBridge.rpc_endpoint rt (JObj members) st
  = match downstream rt c with
    | inr result =>
        (Ret (returned (result_envelope request_id (JStr (json_dumps result)))),
         {| calls := calls st ++ [c]; logged := logged st |})
    | inl text =>
        let envelope := error_envelope request_id (-32603) text in
        let record :=
          "Error calling MCP tool get_available_sources: " ++ text in
        if renderable envelope
        then (Ret (Rendered 500 envelope),
              {| calls := calls st ++ [c]; logged := logged st ++ [record] |})
        else (Ret internal_error_response,
              {| calls := calls st ++ [c];
                 logged := (logged st ++ [record])
                           ++ ["RPC endpoint error: "
                               ++ render_error rt envelope] |})
    end.
Proof.
  intros Hm request_id c.
  destruct (method_is _ _ Hm ltac:(discriminate)) as [Hmethod Htruthy].
  rewrite rest_truthy_method by (rewrite Hmethod; exact Htruthy).
  rewrite Hmethod. fold request_id.
  unfold RestBridge.route; simpl.
  unfold RestBridge.get_available_sources, RestBridge.forward, issue, bind.
  fold c. destruct (downstream rt c) as [text | result]; simpl.
  - unfold failure_answer; simpl. now destruct (renderable _).
  - reflexivity.
Qed.

(** X7. [manage_project] with action ["create"] posts [params] without the
    key [action] to [/api/projects]. *)
Theorem rest_create_project_call (members params : dict) (st : effects) :
  dict_get "method" members = Some (JStr "manage_project") ->
  dict_get_default "params" (JObj []) members = JObj params ->
  dict_get "action" params = Some (JStr "create") ->
  calls (snd (RestBridge.rpc_endpoint rt (JObj members) st))
  = (calls st
     ++ [Http POST (RestBridge.server_url rt ++ "/api/projects")
           (Some (JObj (dict_filter (fun k => negb (String.eqb k "action"))
                          params)))])%list.
Proof.
  intros Hm Hp Haction. enter_rest rt Hm Hp.
  unfold RestBridge.manage_project, py_get, py_items, bind, ret; simpl.
  unfold dict_get_default. rewrite Haction; simpl.
  apply forward_calls.
Qed.

(** X8. [manage_project] with action ["get"] sends a GET without a body to
    [/api/projects/] followed by [str(project_id)]; when [params] has no
    [project_id] the path ends in [None]. *)
Theorem rest_get_project_call (members params : dict) (st : effects) :
  dict_get "method" members = Some (JStr "manage_project") ->
  dict_get_default "params" (JObj []) members = JObj params ->
  dict_get "action" params = Some (JStr "get") ->
  calls (snd (RestBridge.rpc_endpoint rt (JObj members) st))
  = (calls st
     ++ [Http GET
           (RestBridge.server_url rt ++ "/api/projects/"
            ++ match dict_get "project_id" params with
               | Some project_id => py_str project_id
               | None => "None"
               end)
           None])%list.
Proof.
  intros Hm Hp Haction. enter_rest rt Hm Hp.
  unfold RestBridge.manage_project, py_get, py_items, bind, ret; simpl.
  unfold dict_get_default. rewrite Haction; simpl.
  rewrite forward_calls.
  now destruct (dict_get "project_id" params).
Qed.

(** X9. [manage_task] creates with a POST to the tasks of the project and
    updates, for every other action, with a PATCH to the task; a missing
    [project_id] or [task_id] leaves an empty path segment.  The body is
    [params] without the keys that went into the request line. *)
Theorem rest_manage_task_call (members params : dict) (st : effects) :
  dict_get "method" members = Some (JStr "manage_task") ->
  dict_get_default "params" (JObj []) members = JObj params ->
  let segment key :=
    match dict_get key params with
    | Some value => py_str value
    | None => ""
    end in
  let project := RestBridge.server_url rt ++ "/api/projects/" ++ segment "project_id" in
  calls (snd (RestBridge.rpc_endpoint rt (JObj members) st))
  = (calls st
     ++ [if eq_str (dict_get_default "action" JNull params) "create"
         then Http POST (project ++ "/tasks")
                (Some (JObj (dict_filter (not_in ["action"; "project_id"])
                               params)))
         else Http PATCH (project ++ "/tasks/" ++ segment "task_id")
                (Some (JObj (dict_filter
                               (not_in ["action"; "project_id"; "task_id"])
                               params)))])%list.
Proof.
  intros Hm Hp segment project. enter_rest rt Hm Hp.
  unfold RestBridge.manage_task, py_get, py_items, bind, ret; simpl.
  assert (Hseg : forall key,
             py_str (dict_get_default key (JStr "") params) = segment key).
  { intros key. unfold segment, dict_get_default.
    now destruct (dict_get key params). }
  rewrite !Hseg. unfold project.
  rewrite !string_append_assoc.
  destruct (eq_str _ "create"); simpl; apply forward_calls.
Qed.

(** X10. [manage_document] does the same under [/documents], with
    [doc_id] in the place of [task_id]. *)
Theorem rest_manage_document_call (members params : dict) (st : effects) :
  dict_get "method" members = Some (JStr "manage_document") ->
  dict_get_default "params" (JObj []) members = JObj params ->
  let segment key :=
    match dict_get key params with
    | Some value => py_str value
    | None => ""
    end in
  let project := RestBridge.server_url rt ++ "/api/projects/" ++ segment "project_id" in
  calls (snd (RestBridge.rpc_endpoint rt (JObj members) st))
  = (calls st
     ++ [if eq_str (dict_get_default "action" JNull params) "create"
         then Http POST (project ++ "/documents")
                (Some (JObj (dict_filter (not_in ["action"; "project_id"])
                               params)))
         else Http PATCH (project ++ "/documents/" ++ segment "doc_id")
                (Some (JObj (dict_filter
                               (not_in ["action"; "project_id"; "doc_id"])
                               params)))])%list.
Proof.
  intros Hm Hp segment project. enter_rest rt Hm Hp.
  unfold RestBridge.manage_document, py_get, py_items, bind, ret; simpl.
  assert (Hseg : forall key,
             py_str (dict_get_default key (JStr "") params) = segment key).
  { intros key. unfold segment, dict_get_default.
    now destruct (dict_get key params). }
  rewrite !Hseg. unfold project.
  rewrite !string_append_assoc.
  destruct (eq_str _ "create"); simpl; apply forward_calls.
Qed.

End RestCalls.

Section RestParams.

Variable rt : runtime.

#[local] Arguments append : simpl never.

(** X11. The five operations that read [params] issue no call when
    [params] is not a dict (a list, a text, a number, null): the
    [AttributeError] is logged and answered with the tier-2 envelope around
    its text.  When the request id keeps that envelope from being rendered,
    the outer handler logs a second record and answers with its own
    envelope, which has no id. *)
Theorem rest_params_must_be_dict
    (members : dict) (name : string) (params : json) (st : effects) :
  dict_get "method" members = Some (JStr name) ->
  In name ["perform_rag_query"; "search_code_examples"; "manage_project";
           "manage_task"; "manage_document"] ->
  dict_get "params" members = Some params ->
  (forall d, params <> JObj d) ->
  let text := "'" ++ type_name params ++ "' object has no attribute 'get'" in
  let envelope :=
    error_envelope (dict_get_default "id" (JInt 1) members) (-32603) text in
  let record := "Error calling MCP tool " ++ name ++ ": " ++ text in
  RestBridge.rpc_endpoint rt (JObj members) st
  = if renderable envelope
    then (Ret (Rendered 500 envelope),
          {| calls := calls st; logged := logged st ++ [record] |})
    else (Ret internal_error_response,
          {| calls := calls st;
             logged := (logged st ++ [record])
                       ++ ["RPC endpoint error: " ++ render_error rt envelope] |}).
Proof.
  intros Hm Hin Hparams Hnot text envelope record.
  assert (Hp : dict_get_default "params" (JObj []) members = params).
  { unfold dict_get_default. now rewrite Hparams. }
  assert (Hraise : RestBridge.route rt (JStr name) params
                     (dict_get_default "id" (JInt 1) members) st
                   = (Raise (Exn AttributeError text), st)).
  { simpl in Hin.
    repeat (destruct Hin as [<- | Hin]); try contradiction;
      unfold RestBridge.route; simpl;
      (destruct params; try reflexivity; now elim (Hnot members0)). }
  assert (Hname : py_str (JStr name) = name) by reflexivity.
  destruct (method_is members name Hm) as [Hmethod Htruthy].
  { intros ->. simpl in Hin. intuition discriminate. }
  rewrite rest_truthy_method by (rewrite Hmethod; exact Htruthy).
  rewrite Hmethod, Hp, Hraise.
  unfold failure_answer. rewrite Hname. simpl exn_str.
  fold text. fold envelope. fold record.
  now destruct (renderable envelope).
Qed.

End RestParams.

Lemma rest_rag_query_call_witness :
  calls (snd (RestBridge.rpc_endpoint sample_runtime
                (JObj [("method", JStr "perform_rag_query");
                       ("params", JObj [("query", JStr "foo");
                                        ("source_id", JStr "ignored");
                                        ("match_count", JNull)])])
                no_effects))
  = [Http POST "http://archon-server:8181/api/rag/query"
       (Some (JObj [("query", JStr "foo"); ("source_id", JNull);
                    ("match_count", JNull)]))].
Proof.
  exact (rest_rag_query_call sample_runtime
           [("method", JStr "perform_rag_query");
            ("params", JObj [("query", JStr "foo");
                             ("source_id", JStr "ignored");
                             ("match_count", JNull)])]
           [("query", JStr "foo"); ("source_id", JStr "ignored");
            ("match_count", JNull)]
           no_effects eq_refl eq_refl).
Defined.

Lemma rest_code_examples_call_witness :
  calls (snd (RestBridge.rpc_endpoint sample_runtime
                (JObj [("method", JStr "search_code_examples");
                       ("params", JObj [("source_id", JStr "docs")])])
                no_effects))
  = [Http POST "http://archon-server:8181/api/rag/code-examples"
       (Some (JObj [("query", JStr ""); ("source_id", JStr "docs");
                    ("match_count", JInt 5)]))].
Proof.
  exact (rest_code_examples_call sample_runtime
           [("method", JStr "search_code_examples");
            ("params", JObj [("source_id", JStr "docs")])]
           [("source_id", JStr "docs")]
           no_effects eq_refl eq_refl).
Defined.

Lemma rest_sources_ignores_params_witness :
  RestBridge.rpc_endpoint sample_runtime
    (JObj [("method", JStr "get_available_sources"); ("params", JInt 3)])
    no_effects
  = (Ret (returned
            (result_envelope (JInt 1)
               (JStr ("{" ++ dquote ++ "sources" ++ dquote ++ ": []}")))),
     {| calls := [Http GET "http://archon-server:8181/api/rag/sources" None];
        logged := [] |}).
Proof.
  exact (rest_sources_ignores_params sample_runtime
           [("method", JStr "get_available_sources"); ("params", JInt 3)]
           no_effects eq_refl).
Defined.

Lemma rest_create_project_call_witness :
  calls (snd (RestBridge.rpc_endpoint sample_runtime
                (JObj [("method", JStr "manage_project");
                       ("params", JObj [("action", JStr "create");
                                        ("name", JStr "X")])])
                no_effects))
  = [Http POST "http://archon-server:8181/api/projects"
       (Some (JObj [("name", JStr "X")]))].
Proof.
  exact (rest_create_project_call sample_runtime
           [("method", JStr "manage_project");
            ("params", JObj [("action", JStr "create"); ("name", JStr "X")])]
           [("action", JStr "create"); ("name", JStr "X")]
           no_effects eq_refl eq_refl eq_refl).
Defined.

Lemma rest_get_project_call_witness :
  calls (snd (RestBridge.rpc_endpoint sample_runtime
                (JObj [("method", JStr "manage_project");
                       ("params", JObj [("action", JStr "get")])])
                no_effects))
  = [Http GET "http://archon-server:8181/api/projects/None" None].
Proof.
  exact (rest_get_project_call sample_runtime
           [("method", JStr "manage_project");
            ("params", JObj [("action", JStr "get")])]
           [("action", JStr "get")]
           no_effects eq_refl eq_refl eq_refl).
Defined.

Lemma rest_manage_task_call_witness :
  calls (snd (RestBridge.rpc_endpoint sample_runtime
                (JObj [("method", JStr "manage_task");
                       ("params", JObj [("action", JStr "create");
                                        ("project_id", JStr "P1");
                                        ("title", JStr "T")])])
                no_effects))
  = [Http POST "http://archon-server:8181/api/projects/P1/tasks"
       (Some (JObj [("title", JStr "T")]))].
Proof.
  exact (rest_manage_task_call sample_runtime
           [("method", JStr "manage_task");
            ("params", JObj [("action", JStr "create");
                             ("project_id", JStr "P1");
                             ("title", JStr "T")])]
           [("action", JStr "create"); ("project_id", JStr "P1");
            ("title", JStr "T")]
           no_effects eq_refl eq_refl).
Defined.

Lemma rest_manage_document_call_witness :
  calls (snd (RestBridge.rpc_endpoint sample_runtime
                (JObj [("method", JStr "manage_document");
                       ("params", JObj [("action", JStr "rename");
                                        ("doc_id", JInt 12);
                                        ("title", JStr "T")])])
                no_effects))
  = [Http PATCH "http://archon-server:8181/api/projects//documents/12"
       (Some (JObj [("title", JStr "T")]))].
Proof.
  exact (rest_manage_document_call sample_runtime
           [("method", JStr "manage_document");
            ("params", JObj [("action", JStr "rename");
                             ("doc_id", JInt 12);
                             ("title", JStr "T")])]
           [("action", JStr "rename"); ("doc_id", JInt 12);
            ("title", JStr "T")]
           no_effects eq_refl eq_refl).
Defined.

Lemma rest_params_must_be_dict_witness :
  RestBridge.rpc_endpoint sample_runtime
    (JObj [("method", JStr "manage_task"); ("params", JNull); ("id", JInt 2)])
    no_effects
  = (Ret (Rendered 500
            (error_envelope (JInt 2) (-32603)
               "'NoneType' object has no attribute 'get'")),
     {| calls := [];
        logged := ["Error calling MCP tool manage_task: "
                   ++ "'NoneType' object has no attribute 'get'"] |}).
Proof.
  apply (rest_params_must_be_dict sample_runtime
           [("method", JStr "manage_task"); ("params", JNull); ("id", JInt 2)]
           "manage_task" JNull no_effects).
  - reflexivity.
  - simpl. tauto.
  - reflexivity.
  - discriminate.
Defined.

(* ===================================================================== *)
(** * The two endpoints as a whole *)
(* ===================================================================== *)

Section Whole.

Variable rt : runtime.

#[local] Arguments append : simpl never.

(** The answer to a failure of the dispatch: no call, one or two log
    records, and a 500. *)
Lemma failure_answer_run (method request_id : json) (e : exn) (st : effects) :
  let envelope := error_envelope request_id (-32603) (exn_str e) in
  exists st',
    failure_answer rt method request_id e st
    = (Ret (if renderable envelope then Rendered 500 envelope
            else internal_error_response), st')
    /\ calls st' = calls st
    /\ exists records,
         logged st' = (logged st ++ records)%list
         /\ (length records = 1 \/ length records = 2)%nat.
Proof.
  intros envelope. unfold failure_answer. fold envelope.
  destruct (renderable envelope); eexists; (split; [reflexivity |]);
    (split; [reflexivity |]); simpl.
  - eexists. split; [reflexivity | now left].
  - rewrite <- app_assoc. eexists. split; [reflexivity | now right].
Qed.

Lemma failure_answer_status (method request_id : json) (e : exn) (st : effects) :
  exists c st',
    failure_answer rt method request_id e st = (Ret (Rendered 500 c), st')
    /\ calls st' = calls st
    /\ exists records,
         logged st' = (logged st ++ records)%list
         /\ (length records = 1 \/ length records = 2)%nat.
Proof.
  destruct (failure_answer_run method request_id e st)
    as (st' & Hrun & Hcalls & Hlog).
  destruct (renderable _) in Hrun; do 2 eexists; (split; [exact Hrun |]); auto.
Qed.

(** X1. [rpc_endpoint] of the REST bridge answers every request object and
    lets no exception out.  What it returns is the plain dict of a success,
    after which the log is as it was, or a [JSONResponse]: one with status
    400 or 404, which leaves calls and log as they were, or one with status
    500, after one log record or, when the tier-2 envelope could not be
    rendered, two. *)
Theorem rest_endpoint_always_answers (members : dict) (st : effects) :
  exists resp st',
    RestBridge.rpc_endpoint rt (JObj members) st = (Ret resp, st')
    /\ (((exists c, resp = Plain c) /\ logged st' = logged st)
        \/ ((exists c, resp = Rendered 400 c \/ resp = Rendered 404 c)
            /\ st' = st)
        \/ (exists c records,
              resp = Rendered 500 c
              /\ logged st' = (logged st ++ records)%list
              /\ (length records = 1 \/ length records = 2)%nat)).
Proof.
  destruct (rest_answers rt members st)
    as [H | [[e H] | [H | [[e H] | [(c & r & _ & _ & H) | (c & t & _ & _ & H)]]]]];
    rewrite H; clear H.
  - do 2 eexists. split; [reflexivity |]. right; left.
    split; [| reflexivity]. eexists. left. reflexivity.
  - do 2 eexists. split; [reflexivity |]. right; right.
    do 2 eexists. split; [reflexivity |]. split; [reflexivity | now left].
  - do 2 eexists. split; [reflexivity |]. right; left.
    split; [| reflexivity]. eexists. right. reflexivity.
  - destruct (failure_answer_status
                (dict_get_default "method" JNull members)
                (dict_get_default "id" (JInt 1) members) e st)
      as (c & st' & -> & _ & records & Hlog & Hlen).
    do 2 eexists. split; [reflexivity |]. right; right.
    exists c, records. auto.
  - do 2 eexists. split; [reflexivity |]. left.
    split; [eexists; reflexivity | reflexivity].
  - destruct (failure_answer_status
                (dict_get_default "method" JNull members)
                (dict_get_default "id" (JInt 1) members)
                (Exn LibraryError t) (with_call st c))
      as (c' & st' & -> & _ & records & Hlog & Hlen).
    do 2 eexists. split; [reflexivity |]. right; right.
    exists c', records. auto.
Qed.

(** X2. The REST bridge issues at most one call per request object.  When
    it issues none, the answer is a [JSONResponse] with status 400, 404 or
    500.  When it issues one, the URL is the text [server_url], then
    [/api/], then one of the four fixed paths or a path that begins with
    [projects/]; and the answer is fixed by how that call ends: the success
    envelope around [json.dumps] of what came back, or the tier-2 envelope
    around the text of the failure, or, when that envelope cannot be
    rendered, the envelope of the outer handler. *)
Theorem rest_answer_follows_call (members : dict) (st : effects) :
  let request_id := dict_get_default "id" (JInt 1) members in
  exists resp st',
    RestBridge.rpc_endpoint rt (JObj members) st = (Ret resp, st')
    /\ ((calls st' = calls st
         /\ exists c,
              resp = Rendered 400 c \/ resp = Rendered 404 c
              \/ resp = Rendered 500 c)
        \/ (exists v path body,
              let c := Http v (RestBridge.server_url rt ++ "/api/" ++ path) body in
              backend_path path
              /\ calls st' = (calls st ++ [c])%list
              /\ resp
                 = match downstream rt c with
                   | inr result =>
                       returned
                         (result_envelope request_id (JStr (json_dumps result)))
                   | inl text =>
                       let envelope := error_envelope request_id (-32603) text in
                       if renderable envelope then Rendered 500 envelope
                       else internal_error_response
                   end)).
Proof.
  intros request_id.
  destruct (rest_answers rt members st)
    as [H | [[e H] | [H | [[e H] | [(c & r & Hc & Hdown & H)
                                   | (c & t & Hc & Hdown & H)]]]]];
    rewrite H; clear H; fold request_id.
  - do 2 eexists. split; [reflexivity |]. left.
    split; [reflexivity |]. eexists. left. reflexivity.
  - do 2 eexists. split; [reflexivity |]. left.
    split; [reflexivity |]. eexists. right; right. reflexivity.
  - do 2 eexists. split; [reflexivity |]. left.
    split; [reflexivity |]. eexists. right; left. reflexivity.
  - destruct (failure_answer_status
                (dict_get_default "method" JNull members) request_id e st)
      as (c & st' & -> & Hcalls & _).
    do 2 eexists. split; [reflexivity |]. left.
    split; [exact Hcalls |]. eexists. right; right. reflexivity.
  - destruct Hc as (v & path & body & Hpath & ->).
    do 2 eexists. split; [reflexivity |]. right.
    exists v, path, body. cbv zeta. rewrite Hdown.
    split; [exact Hpath |]. split; reflexivity.
  - destruct Hc as (v & path & body & Hpath & ->).
    destruct (failure_answer_run
                (dict_get_default "method" JNull members) request_id
                (Exn LibraryError t)
                (with_call st
                   (Http v (RestBridge.server_url rt ++ "/api/" ++ path) body)))
      as (st' & -> & Hcalls & _).
    do 2 eexists. split; [reflexivity |]. right.
    exists v, path, body. cbv zeta. rewrite Hdown.
    split; [exact Hpath |]. split; [exact Hcalls | reflexivity].
Qed.

(** X12. [rpc_endpoint] of the in-process bridge answers every request
    object and lets no exception out.  It invokes at most one of the six
    tool functions.  When it invokes none, the answer is a [JSONResponse]
    with status 400, 404 or 500.  When it invokes one, the answer is the
    success envelope around the value the tool returned, unchanged, or the
    tier-2 envelope around the text of what the tool raised, or, when that
    envelope cannot be rendered, the envelope of the outer handler. *)
Theorem tool_answer_follows_call (members : dict) (st : effects) :
  let request_id := dict_get_default "id" (JInt 1) members in
  exists resp st',
    ToolBridge.rpc_endpoint rt (JObj members) st = (Ret resp, st')
    /\ ((calls st' = calls st
         /\ exists c,
              resp = Rendered 400 c \/ resp = Rendered 404 c
              \/ resp = Rendered 500 c)
        \/ (exists name kwargs,
              In name tool_names
              /\ calls st' = (calls st ++ [Tool name kwargs])%list
              /\ resp
                 = match downstream rt (Tool name kwargs) with
                   | inr result => returned (result_envelope request_id result)
                   | inl text =>
                       let envelope := error_envelope request_id (-32603) text in
                       if renderable envelope then Rendered 500 envelope
                       else internal_error_response
                   end)).
Proof.
  intros request_id.
  destruct (tool_answers rt members st)
    as [H | [[e H] | [H | [[e H] | [(c & r & Hc & Hdown & H)
                                   | (c & t & Hc & Hdown & H)]]]]];
    rewrite H; clear H; fold request_id.
  - do 2 eexists. split; [reflexivity |]. left.
    split; [reflexivity |]. eexists. left. reflexivity.
  - do 2 eexists. split; [reflexivity |]. left.
    split; [reflexivity |]. eexists. right; right. reflexivity.
  - do 2 eexists. split; [reflexivity |]. left.
    split; [reflexivity |]. eexists. right; left. reflexivity.
  - destruct (failure_answer_status
                (dict_get_default "method" JNull members) request_id e st)
      as (c & st' & -> & Hcalls & _).
    do 2 eexists. split; [reflexivity |]. left.
    split; [exact Hcalls |]. eexists. right; right. reflexivity.
  - destruct Hc as (name & kwargs & Hname & ->).
    do 2 eexists. split; [reflexivity |]. right.
    exists name, kwargs. rewrite Hdown.
    split; [exact Hname |]. split; reflexivity.
  - destruct Hc as (name & kwargs & Hname & ->).
    destruct (failure_answer_run
                (dict_get_default "method" JNull members) request_id
                (Exn LibraryError t) (with_call st (Tool name kwargs)))
      as (st' & -> & Hcalls & _).
    do 2 eexists. split; [reflexivity |]. right.
    exists name, kwargs. rewrite Hdown.
    split; [exact Hname |]. split; [exact Hcalls | reflexivity].
Qed.

(** X13. With a working context, the in-process bridge invokes no tool for
    a truthy [method] outside the six operation names, and answers with the
    404 envelope of code -32601 whenever that envelope can be rendered. *)
Theorem tool_unknown_method_rejected
    (members : dict) (method : json) (st : effects) :
  dict_get "method" members = Some method ->
  truthy method = true ->
  (forall name, In name known_methods -> method <> JStr name) ->
  context_error rt = None ->
  let envelope :=
    error_envelope (dict_get_default "id" (JInt 1) members) (-32601)
      ("Method '" ++ py_str method ++ "' not found") in
  calls (snd (ToolBridge.rpc_endpoint rt (JObj members) st)) = calls st
  /\ (renderable envelope = true ->
      ToolBridge.rpc_endpoint rt (JObj members) st
      = (Ret (Rendered 404 envelope), st)).
Proof.
  intros Hmethod Htruthy Hunknown Hctx envelope.
  assert (Hm : dict_get_default "method" JNull members = method).
  { unfold dict_get_default. now rewrite Hmethod. }
  rewrite tool_truthy_method by (rewrite Hm; exact Htruthy).
  rewrite Hm, Hctx.
  unfold ToolBridge.route.
  rewrite !eq_str_false by (apply Hunknown; simpl; tauto).
  rewrite JSONResponse_run.
  change (content (method_not_found (dict_get_default "id" (JInt 1) members)
                     method)) with envelope.
  change (error_envelope (dict_get_default "id" (JInt 1) members) (-32601)
            ("Method '" ++ py_str method ++ "' not found")) with envelope.
  destruct (renderable envelope).
  - split; [reflexivity |]. intros _. reflexivity.
  - split; [| discriminate]. apply failure_answer_calls.
Qed.

Lemma filtered_keys (keep : string -> bool) (k : string) (d : dict) :
  In k (map fst (dict_filter keep d)) -> keep k = true.
Proof.
  unfold dict_filter. intros Hin.
  apply in_map_iff in Hin. destruct Hin as ([k' v] & <- & Hin).
  apply filter_In in Hin. now destruct Hin.
Qed.


(** X14. [manage_task] and [manage_document] of the in-process bridge pass
    [action] and [project_id] (null when absent) as keyword arguments of
    their own and the remaining members of [params] after them; neither
    name occurs a second time among the keywords. *)
Theorem tool_scoped_call (members params : dict) (name : string) (st : effects) :
  name = "manage_task" \/ name = "manage_document" ->
  dict_get "method" members = Some (JStr name) ->
  dict_get_default "params" (JObj []) members = JObj params ->
  context_error rt = None ->
  let rest := dict_filter (not_in ["action"; "project_id"]) params in
  calls (snd (ToolBridge.rpc_endpoint rt (JObj members) st))
  = (calls st
     ++ [Tool name
           (("action", dict_get_default "action" JNull params)
              :: ("project_id", dict_get_default "project_id" JNull params)
              :: rest)])%list
  /\ ~ In "action" (map fst rest)
  /\ ~ In "project_id" (map fst rest).
Proof.
  intros Hname Hm Hp Hctx rest. split; [| split].
  - destruct Hname as [-> | ->]; enter_tool rt Hm Hp Hctx;
      [unfold ToolBridge.manage_task | unfold ToolBridge.manage_document];
      unfold py_get, py_items, bind, ret; simpl; apply invoke_calls.
  - intros Hin. apply filtered_keys in Hin. discriminate.
  - intros Hin. apply filtered_keys in Hin. discriminate.
Qed.

(** X25. Every answer of the in-process bridge to a request object carries
    the request id (1 when the request has none) or is the envelope of the
    outer handler, which has no id. *)
Theorem tool_object_answer (members : dict) (st : effects) :
  exists resp st',
    ToolBridge.rpc_endpoint rt (JObj members) st = (Ret resp, st')
    /\ (member "id" (content resp)
        = Some (dict_get_default "id" (JInt 1) members)
        \/ resp = internal_error_response).
Proof.
  exact (tool_answer_id rt members st).
Qed.

End Whole.

Lemma tool_unknown_method_rejected_witness :
  calls (snd (ToolBridge.rpc_endpoint sample_runtime
                (JObj [("method", JInt 5)]) no_effects)) = []
  /\ ToolBridge.rpc_endpoint sample_runtime
       (JObj [("method", JInt 5)]) no_effects
     = (Ret (Rendered 404
               (error_envelope (JInt 1) (-32601) "Method '5' not found")),
        no_effects).
Proof.
  destruct (tool_unknown_method_rejected sample_runtime
              [("method", JInt 5)] (JInt 5) no_effects
              eq_refl eq_refl
              (fun name Hin => ltac:(discriminate))
              eq_refl) as [Hcalls Hanswer].
  exact (conj Hcalls (Hanswer eq_refl)).
Defined.

Lemma tool_scoped_call_witness :
  calls (snd (ToolBridge.rpc_endpoint sample_runtime
                (JObj [("method", JStr "manage_task");
                       ("params", JObj [("action", JStr "create");
                                        ("title", JStr "T");
                                        ("project_id", JStr "P1")])])
                no_effects))
  = [Tool "manage_task"
       [("action", JStr "create"); ("project_id", JStr "P1");
        ("title", JStr "T")]].
Proof.
  apply (tool_scoped_call sample_runtime
           [("method", JStr "manage_task");
            ("params", JObj [("action", JStr "create");
                             ("title", JStr "T");
                             ("project_id", JStr "P1")])]
           [("action", JStr "create"); ("title", JStr "T");
            ("project_id", JStr "P1")]
           "manage_task" no_effects).
  - now left.
  - reflexivity.
  - reflexivity.
  - reflexivity.
Defined.


Lemma tool_context_failure_witness :
  ToolBridge.rpc_endpoint broken_context_runtime
    (JObj [("method", JStr "no_such_method"); ("id", JInt 9)]) no_effects
  = (Ret internal_error_response,
     {| calls := [];
        logged := ["RPC endpoint error: unexpected keyword argument 'deps'"] |}).
Proof.
  exact (tool_context_failure broken_context_runtime
           [("method", JStr "no_such_method"); ("id", JInt 9)]
           "unexpected keyword argument 'deps'" no_effects eq_refl eq_refl).
Defined.


Lemma tool_manage_project_call_witness :
  calls (snd (ToolBridge.rpc_endpoint sample_runtime update_project_request
                no_effects))
  = [Tool "manage_project"
       [("action", JStr "update"); ("project_id", JStr "P1");
        ("name", JStr "X")]].
Proof.
  exact (tool_manage_project_call sample_runtime
           [("method", JStr "manage_project");
            ("params", JObj [("action", JStr "update");
                             ("project_id", JStr "P1");
                             ("name", JStr "X")]);
            ("id", JInt 0)]
           [("action", JStr "update"); ("project_id", JStr "P1");
            ("name", JStr "X")]
           no_effects eq_refl eq_refl eq_refl).
Defined.


(** The in-process bridge without a context: the request id is lost. *)
Example rag_query_without_context :
  ToolBridge.rpc_endpoint broken_context_runtime rag_request no_effects
  = (Ret (Rendered 500
            (JObj [("jsonrpc", JStr "2.0");
                   ("error", JObj [("code", JInt (-32603));
                                   ("message", JStr "Internal server error")])])),
     {| calls := [];
        logged := ["RPC endpoint error: unexpected keyword argument 'deps'"] |}).
Proof. reflexivity. Qed.

(** [params] that is not a dict: a tier-2 answer, and no call. *)
Example rag_query_with_list_params :
  RestBridge.rpc_endpoint sample_runtime
    (JObj [("method", JStr "perform_rag_query"); ("params", JList []);
           ("id", JStr "r1")]) no_effects
  = (Ret (Rendered 500
            (error_envelope (JStr "r1") (-32603)
               "'list' object has no attribute 'get'")),
     {| calls := [];
        logged := ["Error calling MCP tool perform_rag_query: "
                   ++ "'list' object has no attribute 'get'"] |}).
Proof. reflexivity. Qed.

(** A failed call for a request whose id cannot be rendered: two log
    records, and the envelope without id. *)
Example failed_update_with_unrenderable_id :
  RestBridge.rpc_endpoint sample_runtime
    (JObj [("method", JStr "manage_project");
           ("params", JObj [("action", JStr "update")]);
           ("id", JStr lone_surrogate)]) no_effects
  = (Ret internal_error_response,
     {| calls := [Http PATCH "http://archon-server:8181/api/projects/"
                    (Some (JObj []))];
        logged :=
          ["Error calling MCP tool manage_project: "
           ++ "Server error '500 Internal Server Error'";
           "RPC endpoint error: "
           ++ sample_render_error
                (error_envelope (JStr lone_surrogate) (-32603)
                   "Server error '500 Internal Server Error'")] |}).
Proof. reflexivity. Qed.

(* ===================================================================== *)
(** * The loop of the demonstration agent *)
(* ===================================================================== *)

Section AgentLoop.

Variable tracker : Type.
Variable bd : list string -> tracker -> Agent.completed * tracker.

(** One step of the loop, as an equation. *)
Lemma run_loop_step (remaining : nat) (st : Agent.world tracker) :
  Agent.run_loop bd (S remaining) st
  = match Agent.run_once bd st with
    | (Ret true, st1) => Agent.run_loop bd remaining st1
    | (Ret false, st1) => (Ret tt, st1)
    | (Raise e, st1) => (Raise e, st1)
    end.
Proof.
  simpl. unfold bind at 1.
  destruct (Agent.run_once bd st) as [[[|] | e] st1]; reflexivity.
Qed.

(** The loop over [iterations] rounds: [k] cycles that found work, then
    nothing more ([k] is the bound), or one cycle that found none, or one
    that raised. *)
Lemma run_loop_cycles (iterations : nat) (st : Agent.world tracker) :
  exists (k : nat) (tail : list (res bool)),
    Agent.cycles bd st (repeat (Ret true) k ++ tail)%list
      (snd (Agent.run_loop bd iterations st))
    /\ (k + length tail <= iterations)%nat
    /\ ((tail = [] /\ k = iterations
         /\ fst (Agent.run_loop bd iterations st) = Ret tt)
        \/ (tail = [Ret false]
            /\ fst (Agent.run_loop bd iterations st) = Ret tt)
        \/ (exists e, tail = [Raise e]
                      /\ fst (Agent.run_loop bd iterations st) = Raise e)).
Proof.
  revert st. induction iterations as [| remaining IH]; intros st.
  - exists O, []. simpl. split; [constructor |]. split; [lia |]. now left.
  - rewrite run_loop_step.
    destruct (Agent.run_once bd st) as [[[|] | e] st1] eqn:Honce.
    + destruct (IH st1) as (k & tail & Hcycles & Hlen & Hstop).
      exists (S k), tail. split; [| split].
      * simpl. econstructor; eassumption.
      * simpl. lia.
      * destruct Hstop as [(-> & -> & Hr) | [(-> & Hr) | (e & -> & Hr)]].
        -- left. auto.
        -- right; left. auto.
        -- right; right. exists e. auto.
    + exists O, [Ret false]. simpl. split; [| split].
      * econstructor; [eassumption | constructor].
      * lia.
      * right; left. auto.
    + exists O, [Raise e]. simpl. split; [| split].
      * econstructor; [eassumption | constructor].
      * lia.
      * right; right. exists e. auto.
Qed.

(** C8. [run(max_iterations)] always ends.  It has then made [k] work
    cycles that found an item, followed by at most one further cycle, which
    found none or raised; together these are at most [max_iterations] cycles
    (10 when the argument is left out), and a cycle that finds no item is
    the last one. *)
Theorem run_stops_within_bound
    (max_iterations : option Z) (st : Agent.world tracker) :
  let bound :=
    Z.to_nat (match max_iterations with Some m => m | None => 10 end) in
  exists (k : nat) (tail : list (res bool)),
    Agent.cycles bd st (repeat (Ret true) k ++ tail)%list
      (snd (Agent.run bd max_iterations st))
    /\ (k + length tail <= bound)%nat
    /\ ((tail = [] /\ k = bound
         /\ fst (Agent.run bd max_iterations st) = Ret tt)
        \/ (tail = [Ret false]
            /\ fst (Agent.run bd max_iterations st) = Ret tt)
        \/ (exists e, tail = [Raise e]
                      /\ fst (Agent.run bd max_iterations st) = Raise e)).
Proof.
  intros bound. unfold Agent.run. fold bound. apply run_loop_cycles.
Qed.

End AgentLoop.

(** One issue in the tracker: the agent claims and closes it, asks again,
    and stops after two of its ten rounds. *)
Example run_on_one_issue :
  Agent.run playback None {| Agent.issues := one_issue_script;
                             Agent.commands := [] |}
  = (Ret tt,
     {| Agent.issues := [];
        Agent.commands :=
          [["bd"; "ready"; "--limit"; "1"; "--json"];
           ["bd"; "update"; "bd-1"; "--status"; "in_progress"; "--json"];
           ["bd"; "close"; "bd-1"; "--reason"; "Implemented successfully";
            "--json"];
           ["bd"; "ready"; "--limit"; "1"; "--json"]] |}).
Proof. reflexivity. Qed.

(** A tracker that always has work keeps the agent busy for exactly the
    number of rounds asked for. *)
Example run_with_endless_work :
  let endless (argv : list string) (n : nat) :=
    (Agent.Exited 0 (Agent.Document (JList [bug_issue])), S n) in
  Agent.issues (snd (Agent.run endless (Some 3)
                       {| Agent.issues := O; Agent.commands := [] |}))
  = 9%nat.
Proof. reflexivity. Qed.


(* ===================================================================== *)
(** * The command lines of the agent *)
(* ===================================================================== *)

Section AgentCommands.

Variable tracker : Type.
Variable bd : list string -> tracker -> Agent.completed * tracker.

#[local] Arguments append : simpl never.

#[local] Abbreviation sh := (M (Agent.world tracker)).

Lemma appends_ret (A : Type) (a : A) : appends 0 (ret a : sh A).
Proof.
  intros st. exists []. simpl. rewrite app_nil_r. auto.
Qed.

Lemma appends_raise (A : Type) (e : exn) : appends 0 (raise e : sh A).
Proof.
  intros st. exists []. simpl. rewrite app_nil_r. auto.
Qed.

Lemma appends_weaken (A : Type) (n m : nat) (c : sh A) :
  (n <= m)%nat -> appends n c -> appends m c.
Proof.
  intros Hle Hc st. destruct (Hc st) as (more & Heq & Hlen & Hbd).
  exists more. repeat split; [exact Heq | lia | exact Hbd].
Qed.

Lemma appends_bind (A B : Type) (n m : nat) (c : sh A) (k : A -> sh B) :
  appends n c -> (forall a, appends m (k a)) -> appends (n + m) (bind c k).
Proof.
  intros Hc Hk st. unfold bind.
  destruct (Hc st) as (more & Heq & Hlen & Hbd).
  destruct (c st) as [[a | e] st1]; simpl in *.
  - destruct (Hk a st1) as (more' & Heq' & Hlen' & Hbd').
    exists (more ++ more')%list. repeat split.
    + now rewrite Heq', Heq, app_assoc.
    + rewrite length_app. lia.
    + apply Forall_app. now split.
  - exists more. repeat split; [exact Heq | lia | exact Hbd].
Qed.

Lemma appends_getitem (obj : json) (key : string) :
  appends 0 (Agent.py_getitem obj key : sh json).
Proof.
  unfold Agent.py_getitem.
  destruct obj; try apply appends_raise.
  destruct (dict_get key members); [apply appends_ret | apply appends_raise].
Qed.

Lemma appends_print (parts : list string) :
  appends 0 (Agent.py_print parts : sh unit).
Proof.
  unfold Agent.py_print. destruct (Agent.refusal _ _ _);
    [apply appends_raise | apply appends_ret].
Qed.

Lemma appends_subprocess_run (rest : list json) :
  appends 1 (Agent.subprocess_run bd (JStr "bd" :: rest)).
Proof.
  intros st. unfold Agent.subprocess_run.
  destruct (Agent.arguments (JStr "bd" :: rest)) as [e | argv] eqn:Hargs.
  - exists []. simpl. rewrite app_nil_r. auto.
  - assert (Hhead : hd_error argv = Some "bd").
    { change (Agent.arguments (JStr "bd" :: rest))
        with (match Agent.arguments rest with
              | inr ws => inr ("bd" :: ws)%list
              | inl e => @inl exn (list string) e
              end) in Hargs.
      destruct (Agent.arguments rest); [discriminate |].
      now injection Hargs as <-. }
    exists [argv].
    destruct (bd argv (Agent.issues st)) as [[| [| code] out] t'];
      simpl; repeat split; auto.
Qed.

Lemma appends_run_bd (args : list json) : appends 1 (Agent.run_bd bd args).
Proof.
  unfold Agent.run_bd. change 1%nat with (1 + 0)%nat.
  apply appends_bind; [apply appends_subprocess_run |].
  intros [| v | why]; [apply appends_ret | apply appends_ret | apply appends_raise].
Qed.

Lemma appends_simulate_work (issue : json) :
  appends 2 (Agent.simulate_work bd issue).
Proof.
  unfold Agent.simulate_work.
  change 2%nat with (0 + (0 + (0 + (0 + (0 + (0 + (0 + 2)))))))%nat.
  apply appends_bind; [apply appends_getitem | intros issue_id].
  apply appends_bind; [apply appends_getitem | intros title].
  apply appends_bind; [apply appends_print | intros _].
  apply appends_bind; [apply appends_getitem | intros priority].
  apply appends_bind; [apply appends_getitem | intros issue_type].
  apply appends_bind; [apply appends_print | intros _].
  apply appends_bind.
  { unfold Agent.py_lower.
    destruct title; (apply appends_ret || apply appends_raise). }
  intros lowered.
  destruct (contains "implement" lowered || contains "add" lowered)%bool;
    [| apply appends_weaken with (n := O); [lia | apply appends_ret]].
  change 2%nat with (1 + (0 + (1 + 0)))%nat.
  apply appends_bind.
  { unfold Agent.create_issue. change 1%nat with (0 + 1)%nat.
    apply appends_bind; [apply appends_print | intros _].
    destruct (negb _); apply appends_run_bd. }
  intros new_issue.
  apply appends_bind; [apply appends_getitem | intros discovered_id].
  apply appends_bind; [| intros ?; apply appends_ret].
  unfold Agent.link_discovery. change 1%nat with (0 + (1 + 0))%nat.
  apply appends_bind; [apply appends_print | intros _].
  apply appends_bind; [apply appends_subprocess_run | intros ?; apply appends_ret].
Qed.

Lemma appends_claim_task (issue_id : json) :
  appends 1 (Agent.claim_task bd issue_id).
Proof.
  unfold Agent.claim_task. change 1%nat with (0 + 1)%nat.
  apply appends_bind; [apply appends_print | intros _; apply appends_run_bd].
Qed.

Lemma appends_complete_task (issue_id : json) (reason : string) :
  appends 1 (Agent.complete_task bd issue_id reason).
Proof.
  unfold Agent.complete_task. change 1%nat with (0 + 1)%nat.
  apply appends_bind; [apply appends_print | intros _; apply appends_run_bd].
Qed.

Lemma appends_run_once : appends 5 (Agent.run_once bd).
Proof.
  unfold Agent.run_once. change 5%nat with (1 + 4)%nat.
  apply appends_bind.
  { unfold Agent.find_ready_work. change 1%nat with (1 + 0)%nat.
    apply appends_bind; [apply appends_run_bd |].
    intros ready. destruct ready; try apply appends_ret.
    destruct items; apply appends_ret. }
  intros [issue |]; [| apply appends_weaken with (n := O); [lia | apply appends_ret]].
  destruct (negb (truthy issue));
    [apply appends_weaken with (n := O); [lia | apply appends_ret] |].
  change 4%nat with (0 + (1 + (2 + (0 + (1 + 0)))))%nat.
  apply appends_bind; [apply appends_getitem | intros issue_id].
  apply appends_bind; [apply appends_claim_task | intros ?].
  apply appends_bind; [apply appends_simulate_work | intros ?].
  apply appends_bind; [apply appends_getitem | intros issue_id'].
  apply appends_bind; [apply appends_complete_task | intros ?; apply appends_ret].
Qed.

Lemma appends_run_loop (iterations : nat) :
  appends (5 * iterations) (Agent.run_loop bd iterations).
Proof.
  induction iterations as [| remaining IH]; simpl Agent.run_loop.
  - apply appends_ret.
  - apply appends_weaken with (n := (5 + 5 * remaining)%nat); [lia |].
    apply appends_bind; [apply appends_run_once |].
    intros [|]; [exact IH |].
    apply appends_weaken with (n := O); [lia | apply appends_ret].
Qed.

(** X15. [run] only ever adds to the commands already executed, it adds at
    most five command lines per round of its bound (ready, update, create,
    dep add, close), and every one of them starts the executable [bd]. *)
Theorem run_executes_only_bd
    (max_iterations : option Z) (st : Agent.world tracker) :
  let bound :=
    Z.to_nat (match max_iterations with Some m => m | None => 10 end) in
  exists more,
    Agent.commands (snd (Agent.run bd max_iterations st))
    = (Agent.commands st ++ more)%list
    /\ (length more <= 5 * bound)%nat
    /\ Forall (fun argv => hd_error argv = Some "bd") more.
Proof.
  intros bound. unfold Agent.run. fold bound.
  exact (appends_run_loop bound st).
Qed.

(** X16. [run] with a bound of zero or less executes nothing. *)
Theorem run_with_no_rounds (m : Z) (st : Agent.world tracker) :
  m <= 0 -> Agent.run bd (Some m) st = (Ret tt, st).
Proof.
  intros Hm. unfold Agent.run.
  replace (Z.to_nat m) with O by lia. reflexivity.
Qed.

End AgentCommands.

Lemma run_with_no_rounds_witness :
  Agent.run playback (Some (-3)) (fresh one_issue_script)
  = (Ret tt, fresh one_issue_script).
Proof.
  apply (run_with_no_rounds script playback (-3) (fresh one_issue_script)).
  lia.
Defined.


(* ===================================================================== *)
(** * One work cycle of the agent *)
(* ===================================================================== *)

Ltac read_words H :=
  repeat match type of H with
         | (_ :: _)%list = map JStr ?ws =>
             let E := fresh "E" in
             destruct ws as [| ? ?]; [discriminate H |];
             simpl in H; injection H as E H;
             first [injection E as <- | subst]
         | []%list = map JStr ?ws =>
             destruct ws; [clear H | discriminate H]
         end.

Section AgentCycle.

Variable tracker : Type.
Variable bd : list string -> tracker -> Agent.completed * tracker.

#[local] Arguments append : simpl never.

#[local] Abbreviation sh := (M (Agent.world tracker)).

Lemma bind_returns (A B : Type) (c : sh A) (k : A -> sh B)
    (st st' : Agent.world tracker) (b : B) :
  bind c k st = (Ret b, st') ->
  exists a st1, c st = (Ret a, st1) /\ k a st1 = (Ret b, st').
Proof.
  unfold bind. destruct (c st) as [[a | e] st1]; [| discriminate].
  intros H. now exists a, st1.
Qed.


Lemma getitem_returns (obj : json) (key : string)
    (st st' : Agent.world tracker) (v : json) :
  Agent.py_getitem obj key st = (Ret v, st') ->
  st' = st
  /\ exists members, obj = JObj members /\ dict_get key members = Some v.
Proof.
  unfold Agent.py_getitem, ret, raise.
  destruct obj; try discriminate.
  destruct (dict_get key members) eqn:Hget; [| discriminate].
  intros H. injection H as <- <-. split; [reflexivity |]. now exists members.
Qed.


Lemma print_returns (parts : list string) (st st' : Agent.world tracker)
    (u : unit) :
  Agent.py_print parts st = (Ret u, st') -> st' = st.
Proof.
  unfold Agent.py_print, ret, raise. destruct (Agent.refusal _ _ _); [discriminate |].
  intros H. now injection H as _ <-.
Qed.

(** The codec refuses nothing where there is nothing it refuses. *)
Lemma refusal_none (refuse : N -> bool) (cps : list N) (position : nat) :
  existsb refuse cps = false -> Agent.refusal refuse position cps = None.
Proof.
  revert position. induction cps as [| cp cps IH]; intros position; simpl;
    [reflexivity |].
  intros H. apply orb_false_elim in H. destruct H as [Hcp Hrest].
  rewrite Hcp. now apply IH.
Qed.

(** A line none of whose parts holds a lone surrogate is printed. *)
Lemma print_plain (parts : list string) (st : Agent.world tracker) :
  Forall (fun part => has_surrogate part = false) parts ->
  Agent.py_print parts st = (Ret tt, st).
Proof.
  intros Hparts. unfold Agent.py_print. rewrite refusal_none; [reflexivity |].
  induction Hparts as [| part parts Hpart _ IH]; simpl; [reflexivity |].
  rewrite existsb_app, IH, orb_false_r.
  unfold has_surrogate in Hpart. rewrite <- Hpart.
  clear. induction (code_points part) as [| p ps IH]; simpl;
    [reflexivity | now rewrite IH].
Qed.

Lemma prints_value (values : list json) (v : json) :
  prints values = true -> In v values -> has_surrogate (py_str v) = false.
Proof.
  unfold prints. intros Hall Hin.
  rewrite forallb_forall in Hall. specialize (Hall v Hin).
  now destruct (has_surrogate (py_str v)).
Qed.

(** A command line that is handed to a new process is a list of texts. *)
Lemma arguments_strings (cmd : list json) (argv : list string) :
  Agent.arguments cmd = inr argv -> cmd = map JStr argv.
Proof.
  revert argv. induction cmd as [| v cmd IH]; intros argv; simpl.
  - intros H. now injection H as <-.
  - destruct v; try discriminate.
    destruct (Agent.word_error s); [discriminate |].
    destruct (Agent.arguments cmd) as [e | ws]; [discriminate |].
    intros H. injection H as <-. simpl. now rewrite (IH ws eq_refl).
Qed.

(** A list of texts each of which can be handed to a new process is handed
    over as it is. *)
Lemma arguments_startable (argv : list string) :
  startable argv = true -> Agent.arguments (map JStr argv) = inr argv.
Proof.
  induction argv as [| w argv IH]; simpl; [reflexivity |].
  intros H. apply andb_prop in H. destruct H as [Hw Hrest].
  destruct (Agent.word_error w); [discriminate |].
  now rewrite (IH Hrest).
Qed.

(** A command that ran to a zero exit status was a list of texts, and it is
    the one command added to the log. *)
Lemma subprocess_run_returns (cmd : list json) (st st' : Agent.world tracker)
    (out : Agent.stdout_text) :
  Agent.subprocess_run bd cmd st = (Ret out, st') ->
  exists argv,
    cmd = map JStr argv
    /\ bd argv (Agent.issues st) = (Agent.Exited 0 out, Agent.issues st')
    /\ Agent.commands st' = (Agent.commands st ++ [argv])%list.
Proof.
  unfold Agent.subprocess_run.
  destruct (Agent.arguments cmd) as [e | argv] eqn:Hargs; [discriminate |].
  apply arguments_strings in Hargs.
  destruct (bd argv (Agent.issues st)) as [[| [| code] out0] t'] eqn:Hbd;
    try discriminate.
  intros H. injection H as <- <-. exists argv. simpl. now repeat split.
Qed.

Lemma run_bd_returns (args : list json) (st st' : Agent.world tracker) (v : json) :
  Agent.run_bd bd args st = (Ret v, st') ->
  exists argv,
    (JStr "bd" :: args ++ [JStr "--json"])%list = map JStr argv
    /\ Agent.commands st' = (Agent.commands st ++ [argv])%list.
Proof.
  unfold Agent.run_bd. intros H.
  apply bind_returns in H. destruct H as (out & st1 & Hrun & Hk).
  apply subprocess_run_returns in Hrun.
  destruct Hrun as (argv & Hwords & _ & Hlog).
  exists argv. split; [exact Hwords |].
  destruct out; unfold ret, raise in Hk; try discriminate;
    injection Hk as _ <-; exact Hlog.
Qed.

(** How a command line of texts that can be handed over ends. *)
Lemma subprocess_run_started (argv : list string) (st : Agent.world tracker) :
  startable argv = true ->
  Agent.subprocess_run bd (map JStr argv) st
  = (match fst (bd argv (Agent.issues st)) with
     | Agent.NotStarted =>
         Raise (Exn FileNotFoundError
                  "[Errno 2] No such file or directory: 'bd'")
     | Agent.Exited O out => Ret out
     | Agent.Exited code _ =>
         Raise (Exn CalledProcessError
                  ("Command '" ++ py_repr (JList (map JStr argv))
                   ++ "' returned non-zero exit status "
                   ++ decimal (Z.of_nat code) ++ "."))
     end,
     {| Agent.issues := snd (bd argv (Agent.issues st));
        Agent.commands := Agent.commands st ++ [argv] |}).
Proof.
  intros Hstart. unfold Agent.subprocess_run.
  rewrite (arguments_startable argv Hstart).
  now destruct (bd argv (Agent.issues st)) as [[| [| code] out] t'].
Qed.

Lemma ready_runs (st : Agent.world tracker) :
  Agent.run_once bd st
  = bind (bind (bind (Agent.subprocess_run bd (map JStr ready_command))
                  (fun out =>
                     match out with
                     | Agent.Blank => ret (JObj [])
                     | Agent.Document v => ret v
                     | Agent.Malformed why => raise (Exn JSONDecodeError why)
                     end))
            (fun ready =>
               match ready with
               | JList (first :: _) => ret (Some first)
               | _ => ret None
               end))
      (fun found =>
         match found with
         | None => ret false
         | Some issue =>
             if negb (truthy issue) then ret false
             else
               bind (Agent.py_getitem issue "id") (fun issue_id =>
               bind (Agent.claim_task bd issue_id) (fun _ =>
               bind (Agent.simulate_work bd issue) (fun _ =>
               bind (Agent.py_getitem issue "id") (fun issue_id' =>
               bind (Agent.complete_task bd issue_id'
                       "Implemented successfully") (fun _ =>
               ret true)))))
         end) st.
Proof. reflexivity. Qed.

(** X17. When [bd ready] exits with status 0 and its output holds nothing
    to work on (blank, not a list, an empty list, or a falsy first
    element), the work cycle reports no work after that one command, and
    [run] with a positive bound returns right after it. *)
Theorem run_stops_without_work
    (max_iterations : option Z) (st : Agent.world tracker)
    (out : Agent.stdout_text) (issues' : tracker) :
  match max_iterations with Some m => 0 < m | None => True end ->
  bd ready_command (Agent.issues st) = (Agent.Exited 0 out, issues') ->
  offers_nothing out = true ->
  let st' := {| Agent.issues := issues';
                Agent.commands := Agent.commands st ++ [ready_command] |} in
  Agent.run_once bd st = (Ret false, st')
  /\ Agent.run bd max_iterations st = (Ret tt, st').
Proof.
  intros Hpos Hready Hnothing st'.
  assert (Honce : Agent.run_once bd st = (Ret false, st')).
  { rewrite ready_runs. unfold bind at 1 2 3.
    rewrite (subprocess_run_started ready_command st eq_refl), Hready.
    simpl fst. simpl snd. fold st'.
    destruct out as [| v | why]; [reflexivity | | discriminate].
    destruct v; try reflexivity.
    destruct items as [| first items]; [reflexivity |].
    simpl in Hnothing. simpl. now rewrite Hnothing. }
  split; [exact Honce |].
  unfold Agent.run.
  destruct (Z.to_nat match max_iterations with Some m => m | None => 10 end)
    as [| remaining] eqn:Hbound.
  - destruct max_iterations as [m |]; [lia | discriminate].
  - simpl. unfold bind at 1. now rewrite Honce.
Qed.

(** X18. A work cycle that reports work has claimed the issue before
    anything else and closed it at the very end: its commands are
    [bd ready], [bd update <id> --status in_progress], at most two commands
    of the simulated work, and [bd close <id>] for the same id, which is a
    text. *)
Theorem run_once_claims_then_closes (st st' : Agent.world tracker) :
  Agent.run_once bd st = (Ret true, st') ->
  exists issue_id between,
    Agent.commands st'
    = (Agent.commands st
       ++ [ready_command; update_command issue_id]
       ++ between ++ [close_command issue_id])%list
    /\ (length between <= 2)%nat.
Proof.
  unfold Agent.run_once. intros H.
  apply bind_returns in H. destruct H as (found & st1 & Hfind & H).
  unfold Agent.find_ready_work in Hfind.
  apply bind_returns in Hfind. destruct Hfind as (ready & st0 & Hready & Hfirst).
  apply run_bd_returns in Hready. destruct Hready as (argv0 & Hw0 & Hlog0).
  simpl in Hw0. read_words Hw0.
  assert (Hst1 : st1 = st0).
  { destruct ready; unfold ret in Hfirst; try (now injection Hfirst as _ <-).
    destruct items; now injection Hfirst as _ <-. }
  subst st1. clear Hfirst.
  destruct found as [issue |]; [| discriminate].
  destruct (negb (truthy issue)); [discriminate |].
  apply bind_returns in H. destruct H as (issue_id & st2 & Hid & H).
  apply getitem_returns in Hid. destruct Hid as (-> & members & -> & Hid).
  apply bind_returns in H. destruct H as (claimed & st3 & Hclaim & H).
  unfold Agent.claim_task in Hclaim.
  apply bind_returns in Hclaim. destruct Hclaim as (u1 & st2' & Hp1 & Hclaim).
  apply print_returns in Hp1. subst st2'.
  apply run_bd_returns in Hclaim. destruct Hclaim as (argv1 & Hw1 & Hlog1).
  simpl in Hw1. read_words Hw1.
  apply bind_returns in H. destruct H as (discovered & st4 & Hwork & H).
  destruct (appends_simulate_work tracker bd (JObj members) st3)
    as (between & Hlog2 & Hlen & _).
  rewrite Hwork in Hlog2. simpl in Hlog2.
  apply bind_returns in H. destruct H as (issue_id' & st5 & Hid' & H).
  apply getitem_returns in Hid'. destruct Hid' as (-> & members' & Hsame & Hid').
  injection Hsame as <-. rewrite Hid in Hid'. injection Hid' as <-.
  apply bind_returns in H. destruct H as (closed & st6 & Hclose & H).
  unfold Agent.complete_task in Hclose.
  apply bind_returns in Hclose. destruct Hclose as (u2 & st5' & Hp2 & Hclose).
  apply print_returns in Hp2. subst st5'.
  apply run_bd_returns in Hclose. destruct Hclose as (argv2 & Hw2 & Hlog3).
  simpl in Hw2. read_words Hw2.
  unfold ret in H. injection H as <-.
  eexists _, between. split; [| exact Hlen].
  rewrite Hlog3, Hlog2, Hlog1, Hlog0.
  unfold ready_command, update_command, close_command.
  rewrite <- !app_assoc. reflexivity.
Qed.

End AgentCycle.

Section AgentWork.

Variable tracker : Type.
Variable bd : list string -> tracker -> Agent.completed * tracker.

#[local] Arguments append : simpl never.

Lemma bind_ret_l (A B : Type) (a : A) (k : A -> M (Agent.world tracker) B)
    (st : Agent.world tracker) :
  bind (ret a) k st = k a st.
Proof. reflexivity. Qed.

Lemma bind_print (B : Type) (parts : list string)
    (k : unit -> M (Agent.world tracker) B) (st : Agent.world tracker) :
  Forall (fun part => has_surrogate part = false) parts ->
  bind (Agent.py_print parts) k st = k tt st.
Proof.
  intros Hparts. unfold bind. now rewrite (print_plain tracker parts st Hparts).
Qed.

(** What [simulate_work] does once it has read the four members and shown
    them. *)
Lemma simulate_work_reads
    (members : dict) (issue_id title priority issue_type : json)
    (st : Agent.world tracker) :
  dict_get "id" members = Some issue_id ->
  dict_get "title" members = Some title ->
  dict_get "priority" members = Some priority ->
  dict_get "issue_type" members = Some issue_type ->
  prints [issue_id; title; priority; issue_type] = true ->
  Agent.simulate_work bd (JObj members) st
  = bind (Agent.py_lower title) (fun lowered =>
      if (contains "implement" lowered || contains "add" lowered)%bool then
        bind (Agent.create_issue bd
                ("Add tests for " ++ py_str title)
                ("While implementing " ++ py_str issue_id
                 ++ ", noticed missing tests")
                1 "task") (fun new_issue =>
        bind (Agent.py_getitem new_issue "id") (fun discovered_id =>
        bind (Agent.link_discovery bd discovered_id issue_id) (fun _ =>
        ret true)))
      else ret false) st.
Proof.
  intros Hid Htitle Hpriority Htype Hprints.
  assert (Hshown : forall v, In v [issue_id; title; priority; issue_type] ->
                             has_surrogate (py_str v) = false).
  { intros v. now apply prints_value. }
  unfold Agent.simulate_work, Agent.py_getitem.
  rewrite Hid, Htitle, Hpriority, Htype.
  rewrite !bind_ret_l.
  rewrite bind_print.
  2:{ repeat constructor; try reflexivity; apply Hshown; simpl; tauto. }
  rewrite !bind_ret_l.
  rewrite bind_print.
  2:{ repeat constructor; try reflexivity; apply Hshown; simpl; tauto. }
  reflexivity.
Qed.

(** X19. [simulate_work] on an issue, any dict that has the four members
    it reads, whose title is a text that in lower case contains neither
    ["implement"] nor ["add"], executes no command and reports that nothing
    was discovered, provided the four values can be shown on the terminal
    (none is a text with a lone surrogate). *)
Theorem simulate_work_plain
    (members : dict) (issue_id priority issue_type : json) (title : string)
    (st : Agent.world tracker) :
  dict_get "id" members = Some issue_id ->
  dict_get "title" members = Some (JStr title) ->
  dict_get "priority" members = Some priority ->
  dict_get "issue_type" members = Some issue_type ->
  prints [issue_id; JStr title; priority; issue_type] = true ->
  contains "implement" (lower title) = false ->
  contains "add" (lower title) = false ->
  Agent.simulate_work bd (JObj members) st = (Ret false, st).
Proof.
  intros Hid Htitle Hpriority Htype Hprints Himplement Hadd.
  rewrite (simulate_work_reads members issue_id (JStr title) priority
             issue_type st Hid Htitle Hpriority Htype Hprints).
  unfold Agent.py_lower, bind, ret.
  now rewrite Himplement, Hadd.
Qed.

(** X20. [simulate_work] on an issue, any dict that has the four members
    it reads, whose id is a text and whose title is a text that in lower
    case contains ["implement"] or ["add"], files the follow-up issue
    ["Add tests for <title>"] with priority 1, type task and a description
    naming the parent, then links the id [bd create] reported to the parent
    with [bd dep add ... --type discovered-from]; these are its only two
    commands.  This is so when the values it shows can be shown on the
    terminal (none is a text with a lone surrogate), both command lines can
    be handed to a new process (no word holds NUL), both exit with status
    0, and [bd create] prints an object whose [id] is a text. *)
Theorem simulate_work_files_follow_up
    (members : dict) (issue_id title : string) (priority issue_type : json)
    (st : Agent.world tracker)
    (created : dict) (new_id : string) (issues1 issues2 : tracker)
    (out : Agent.stdout_text) :
  dict_get "id" members = Some (JStr issue_id) ->
  dict_get "title" members = Some (JStr title) ->
  dict_get "priority" members = Some priority ->
  dict_get "issue_type" members = Some issue_type ->
  prints [JStr issue_id; JStr title; priority; issue_type; JStr new_id] = true ->
  (contains "implement" (lower title) || contains "add" (lower title))%bool = true ->
  startable (create_command title issue_id) = true ->
  bd (create_command title issue_id) (Agent.issues st)
  = (Agent.Exited 0 (Agent.Document (JObj created)), issues1) ->
  dict_get "id" created = Some (JStr new_id) ->
  startable (link_command new_id issue_id) = true ->
  bd (link_command new_id issue_id) issues1 = (Agent.Exited 0 out, issues2) ->
  Agent.simulate_work bd (JObj members) st
  = (Ret true,
     {| Agent.issues := issues2;
        Agent.commands := Agent.commands st
                          ++ [create_command title issue_id;
                              link_command new_id issue_id] |}).
Proof.
  intros Hid Htitle Hpriority Htype Hprints Hkeyword Hcreatable Hcreate Hnew
    Hlinkable Hlink.
  assert (Hshown : forall v,
             In v [JStr issue_id; JStr title; priority; issue_type; JStr new_id] ->
             has_surrogate (py_str v) = false).
  { intros v. now apply prints_value. }
  assert (Hfour : prints [JStr issue_id; JStr title; priority; issue_type] = true).
  { unfold prints in *. simpl in *.
    repeat (apply andb_prop in Hprints; destruct Hprints as [? Hprints]).
    repeat (apply andb_true_intro; split); auto. }
  rewrite (simulate_work_reads members (JStr issue_id) (JStr title) priority
             issue_type st Hid Htitle Hpriority Htype Hfour).
  unfold Agent.py_lower. rewrite bind_ret_l.
  rewrite Hkeyword.
  unfold Agent.create_issue.
  change (negb (String.eqb ("While implementing " ++ py_str (JStr issue_id)
                            ++ ", noticed missing tests") ""))
    with true.
  cbv iota.
  unfold bind at 1. rewrite bind_print.
  2:{ repeat constructor.
      exact (Hshown (JStr title) ltac:(simpl; tauto)). }
  unfold Agent.run_bd.
  change ([JStr "bd"]
          ++ ([JStr "create"; JStr ("Add tests for " ++ py_str (JStr title));
               JStr "-p"; JStr (decimal 1); JStr "-t"; JStr "task"]
              ++ [JStr "-d";
                  JStr ("While implementing " ++ py_str (JStr issue_id)
                        ++ ", noticed missing tests")])
          ++ [JStr "--json"])%list
    with (map JStr (create_command title issue_id)).
  unfold bind at 1.
  rewrite (subprocess_run_started tracker bd (create_command title issue_id) st
             Hcreatable), Hcreate.
  simpl fst. simpl snd. cbv iota. unfold ret at 1.
  unfold bind at 1. unfold Agent.py_getitem. rewrite Hnew. unfold ret at 1.
  unfold Agent.link_discovery.
  unfold bind at 1. rewrite bind_print.
  2:{ repeat constructor; try reflexivity; apply (Hshown (JStr _)); simpl; tauto. }
  change [JStr "bd"; JStr "dep"; JStr "add"; JStr new_id; JStr issue_id;
          JStr "--type"; JStr "discovered-from"]
    with (map JStr (link_command new_id issue_id)).
  unfold bind.
  rewrite (subprocess_run_started tracker bd (link_command new_id issue_id) _
             Hlinkable).
  simpl Agent.issues. rewrite Hlink. simpl.
  unfold ret. rewrite <- app_assoc. reflexivity.
Qed.

(** X21. When the first command of the agent, [bd ready], exits with a
    status other than 0, [main] ends with exit status 1 after that one
    command. *)
Theorem main_exits_1_on_failed_command
    (st : Agent.world tracker) (code : nat) (out : Agent.stdout_text)
    (issues' : tracker) :
  bd ready_command (Agent.issues st) = (Agent.Exited (S code) out, issues') ->
  Agent.main bd st
  = (Ret 1,
     {| Agent.issues := issues';
        Agent.commands := Agent.commands st ++ [ready_command] |}).
Proof.
  intros Hready.
  unfold Agent.main, Agent.run; simpl Agent.run_loop.
  unfold bind at 1. rewrite ready_runs. unfold bind at 1 2 3.
  rewrite (subprocess_run_started tracker bd ready_command st eq_refl), Hready.
  reflexivity.
Qed.

(** X22. When the executable [bd] cannot be started, the
    [FileNotFoundError] is not among the exceptions [main] handles: it
    leaves [main], which sets no exit status. *)
Theorem main_lets_missing_executable_escape
    (st : Agent.world tracker) (issues' : tracker) :
  bd ready_command (Agent.issues st) = (Agent.NotStarted, issues') ->
  Agent.main bd st
  = (Raise (Exn FileNotFoundError "[Errno 2] No such file or directory: 'bd'"),
     {| Agent.issues := issues';
        Agent.commands := Agent.commands st ++ [ready_command] |}).
Proof.
  intros Hready.
  unfold Agent.main, Agent.run; simpl Agent.run_loop.
  unfold bind at 1. rewrite ready_runs. unfold bind at 1 2 3.
  rewrite (subprocess_run_started tracker bd ready_command st eq_refl), Hready.
  reflexivity.
Qed.

End AgentWork.

Lemma run_stops_without_work_witness :
  let st' := {| Agent.issues := [];
                Agent.commands := [] ++ [ready_command] |} in
  Agent.run_once playback
    (fresh [Agent.Exited 0 (Agent.Document (JList []))])
  = (Ret false, st')
  /\ Agent.run playback None
       (fresh [Agent.Exited 0 (Agent.Document (JList []))])
     = (Ret tt, st').
Proof.
  exact (run_stops_without_work script playback None
           (fresh [Agent.Exited 0 (Agent.Document (JList []))])
           (Agent.Document (JList [])) [] I eq_refl eq_refl).
Defined.


Lemma run_once_claims_then_closes_witness :
  exists issue_id between,
    Agent.commands (snd (Agent.run_once playback (fresh feature_script)))
    = (Agent.commands (fresh feature_script)
       ++ [ready_command; update_command issue_id]
       ++ between ++ [close_command issue_id])%list
    /\ (length between <= 2)%nat.
Proof.
  exact (run_once_claims_then_closes script playback (fresh feature_script)
           (snd (Agent.run_once playback (fresh feature_script))) eq_refl).
Defined.


Lemma simulate_work_plain_witness :
  Agent.simulate_work playback
    (JObj [("title", JStr "Fix Crash On Start"); ("id", JInt 17);
           ("issue_type", JStr "bug"); ("priority", JNull);
           ("status", JStr "open")])
    (fresh one_issue_script)
  = (Ret false, fresh one_issue_script).
Proof.
  exact (simulate_work_plain script playback
           [("title", JStr "Fix Crash On Start"); ("id", JInt 17);
            ("issue_type", JStr "bug"); ("priority", JNull);
            ("status", JStr "open")]
           (JInt 17) JNull (JStr "bug") "Fix Crash On Start"
           (fresh one_issue_script)
           eq_refl eq_refl eq_refl eq_refl eq_refl eq_refl eq_refl).
Defined.

Lemma simulate_work_files_follow_up_witness :
  Agent.simulate_work playback
    (JObj [("title", JStr "Fix padding"); ("status", JStr "open");
           ("id", JStr "bd-2"); ("priority", JInt 2);
           ("issue_type", JStr "bug")])
    (fresh [Agent.Exited 0 (Agent.Document (JObj [("id", JStr "bd-3")]));
            Agent.Exited 0 Agent.Blank])
  = (Ret true,
     {| Agent.issues := [];
        Agent.commands :=
          [] ++ [create_command "Fix padding" "bd-2";
                 link_command "bd-3" "bd-2"] |}).
Proof.
  exact (simulate_work_files_follow_up script playback
           [("title", JStr "Fix padding"); ("status", JStr "open");
            ("id", JStr "bd-2"); ("priority", JInt 2);
            ("issue_type", JStr "bug")]
           "bd-2" "Fix padding" (JInt 2) (JStr "bug")
           (fresh [Agent.Exited 0 (Agent.Document (JObj [("id", JStr "bd-3")]));
                   Agent.Exited 0 Agent.Blank])
           [("id", JStr "bd-3")] "bd-3" [Agent.Exited 0 Agent.Blank] []
           Agent.Blank
           eq_refl eq_refl eq_refl eq_refl eq_refl eq_refl eq_refl eq_refl
           eq_refl eq_refl eq_refl).
Defined.

Lemma main_exits_1_on_failed_command_witness :
  Agent.main playback (fresh [Agent.Exited 2 Agent.Blank])
  = (Ret 1,
     {| Agent.issues := []; Agent.commands := [] ++ [ready_command] |}).
Proof.
  exact (main_exits_1_on_failed_command script playback
           (fresh [Agent.Exited 2 Agent.Blank]) 1 Agent.Blank [] eq_refl).
Defined.


Lemma main_lets_missing_executable_escape_witness :
  Agent.main playback (fresh [Agent.NotStarted])
  = (Raise (Exn FileNotFoundError "[Errno 2] No such file or directory: 'bd'"),
     {| Agent.issues := []; Agent.commands := [] ++ [ready_command] |}).
Proof.
  exact (main_lets_missing_executable_escape script playback
           (fresh [Agent.NotStarted]) [] eq_refl).
Defined.


(** The agent on the feature request: five commands, the follow-up issue
    linked to its parent. *)
Example run_once_on_feature_request :
  Agent.commands (snd (Agent.run_once playback (fresh feature_script)))
  = [ready_command;
     update_command "bd-2";
     create_command "Implement login" "bd-2";
     link_command "bd-3" "bd-2";
     close_command "bd-2"].
Proof. reflexivity. Qed.

(** An issue id with a NUL in it: [bd update] is never started, and the
    [ValueError] leaves [main]. *)
Example main_with_nul_in_issue_id :
  Agent.main playback
    (fresh [Agent.Exited 0
              (Agent.Document
                 (JList [JObj [("id", JStr (String zero "x"))]]))])
  = (Raise (Exn ValueError "embedded null byte"),
     {| Agent.issues := []; Agent.commands := [ready_command] |}).
Proof. reflexivity. Qed.
